(** * Company Analysis Tool: the team resolver, the result extractor and the
      session history of [company_analyzer.py]

    The script is a Streamlit page.  Its decision logic is

    - [get_team_assignment]: sector labels to a team member,
    - [analyze_company]: one outbound chat completion, then a best-effort
      extraction of the JSON object from the text of the answer,
    - the script body: it stores the last analysis in the session, appends it
      to the session history unless an entry of that name exists, and
      displays the last ten entries, newest first.

    Python values are embedded as follows.  A [str] is a [string]; the two
    characters the extractor looks for are ASCII, so byte offsets and code
    point offsets cut the same substrings.  Indices are [Z], because
    [str.find] answers [-1] and slices accept negative bounds.  [set(sectors)]
    is a [gset string].  The analysis dictionary is read only at the five keys
    of the data model; it is a record of optional fields together with the
    number of its other keys.  [json.loads] and the chat-completion endpoint
    are outside the repository: the first is a parameter of the development
    (with a reference parser to run it), the second is an input of each run. *)

From Stdlib Require Import ZArith Ascii String List Permutation Lia.
From stdpp Require Import base decidable option gmap strings.
Import ListNotations.

Local Open Scope Z_scope.
Set Warnings "-register-all".

(** ** Python strings *)

Module PyStr.

(** [s.find(c)] for a one-character needle: the lowest index, or [-1]. *)
Fixpoint find_from (c : ascii) (s : string) (i : Z) : Z :=
  match s with
  | EmptyString => -1
  | String a s' => if Ascii.eqb a c then i else find_from c s' (i + 1)
  end.

Definition find (c : ascii) (s : string) : Z := find_from c s 0.

(** [s.rfind(c)]: the highest index, or [-1].  [best] is the highest index
    seen so far. *)
Fixpoint rfind_from (c : ascii) (s : string) (i best : Z) : Z :=
  match s with
  | EmptyString => best
  | String a s' => rfind_from c s' (i + 1) (if Ascii.eqb a c then i else best)
  end.

Definition rfind (c : ascii) (s : string) : Z := rfind_from c s 0 (-1).

Definition len (s : string) : Z := Z.of_nat (String.length s).

(** A slice bound as CPython adjusts it: a negative bound counts from the
    end, then the bound is clipped to [0 .. len]. *)
Definition adjust_index (n i : Z) : Z :=
  if i <? 0 then Z.max 0 (i + n) else Z.min i n.

(** [s[start:stop]] *)
Definition slice (s : string) (start stop : Z) : string :=
  let lo := adjust_index (len s) start in
  let hi := adjust_index (len s) stop in
  String.substring (Z.to_nat lo) (Z.to_nat (hi - lo)) s.

(** [sep.join(parts)] *)
Fixpoint join (sep : string) (parts : list string) : string :=
  match parts with
  | [] => ""
  | [p] => p
  | p :: ps => p +:+ sep +:+ join sep ps
  end.

(** [lst[start:]] on a list, with the same adjustment of the bound. *)
Definition list_slice_from {A : Type} (l : list A) (start : Z) : list A :=
  skipn (Z.to_nat (adjust_index (Z.of_nat (List.length l)) start)) l.

(** Truth value of a [str]: the empty string is false. *)
Definition truthy (s : string) : bool :=
  match s with EmptyString => false | String _ _ => true end.

(** [str(x)] for a value that is a [str] or [None]. *)
Definition str_of_optional (x : option string) : string :=
  match x with Some s => s | None => "None" end.

(** The double quote, and text written with a stand-in character [q] where
    the double quotes go. *)
Definition dquote : ascii := Ascii.ascii_of_nat 34.

Fixpoint quoted (q : ascii) (s : string) : string :=
  match s with
  | EmptyString => EmptyString
  | String a s' => String (if Ascii.eqb a q then dquote else a) (quoted q s')
  end.

(** [c in s] as a proposition, for the statements. *)
Fixpoint has_char (c : ascii) (s : string) : Prop :=
  match s with
  | EmptyString => False
  | String a s' => a = c \/ has_char c s'
  end.

(** [sub in s] *)
Definition contains (sub s : string) : Prop :=
  exists p q, s = p +:+ sub +:+ q.

End PyStr.

(** ** Team assignment *)

(** [get_team_assignment(sectors)] *)
Definition get_team_assignment (sectors : list string) : string :=
  match sectors with
  | [] => "To be assigned"
  | _ =>
      let sector_set : gset string := list_to_set sectors in
      if bool_decide (({["K-12"; "Higher Education"]} : gset string) ⊆ sector_set)
      then "Mitch"
      else if bool_decide (({["Workforce Learning"; "Corporate Development"]} : gset string)
                             ⊆ sector_set)
      then "Sam"
      else if bool_decide ("K-12" ∈ sector_set) || bool_decide ("Higher Education" ∈ sector_set)
      then "Mitch"
      else if bool_decide ("Workforce Learning" ∈ sector_set)
              || bool_decide ("Corporate Development" ∈ sector_set)
      then "Sam"
      else "To be assigned"
  end.

(** ** JSON values *)

Inductive json : Type :=
  | JNull
  | JBool (b : bool)
  | JNum (n : Z)
  | JStr (s : string)
  | JArr (items : list json)
  | JObj (members : list (string * json)).

(** ** The data model *)

(** The dictionary an analysis is.  The script reads it at five keys, each
    either absent or holding a value of the type the data model gives it;
    [other_keys] counts the keys the script never reads.

    This type is the subject of every statement about analyses below: a
    parsed object whose fields have other types (a number or a string for a
    list of sectors, a number for the name) is not an [AnalysisResult].  On
    such an object lines 179 to 185 of the script can raise after line 166
    stored it, and [==] on a name that is [NaN] is not reflexive; neither
    happens for the values of this type, on which a name is a [str] or
    absent and the comparison of line 211 is equality. *)
Record AnalysisResult : Type := mkAnalysisResult {
  company_name : option string;
  primary_sectors : option (list string);
  secondary_sectors : option (list string);
  reasoning : option string;
  confidence : option string;
  other_keys : nat
}.

(** Truth value of the dictionary: false exactly when it has no key. *)
Definition analysis_truthy (a : AnalysisResult) : bool :=
  bool_decide (is_Some (company_name a))
  || bool_decide (is_Some (primary_sectors a))
  || bool_decide (is_Some (secondary_sectors a))
  || bool_decide (is_Some (reasoning a))
  || bool_decide (is_Some (confidence a))
  || negb (Nat.eqb (other_keys a) 0).

(** An entry of the session history: the dictionary built at the append. *)
Record HistoryEntry : Type := mkHistoryEntry {
  entry_company_name : option string;
  sectors : list string;
  assigned_to : string;
  entry_confidence : string
}.

(** [st.session_state]: each of the two keys is absent ([None]) or set. *)
Record SessionState : Type := mkSessionState {
  last_analysis : option AnalysisResult;
  analysis_history : option (list HistoryEntry)
}.

Definition initial_session : SessionState :=
  {| last_analysis := None; analysis_history := None |}.

(** The entries of the history, none while the key is absent. *)
Definition entries (s : SessionState) : list HistoryEntry :=
  default [] (analysis_history s).

(** What a run puts on the page, in order. *)
Inductive widget : Type :=
  | st_title (body : string)
  | st_error (body : string)
  | st_warning (body : string)
  | st_success (body : string)
  | st_header (body : string)
  | st_subheader (body : string)
  | st_write (args : list string)
  | st_expander (label : string) (inside : list widget).

(** ** The reference JSON parser

    It reads objects, arrays, strings with the two-character escapes,
    integers and the three literals, with JSON white space between tokens. *)

Module Json.

Definition is_ws (c : ascii) : bool :=
  match Ascii.nat_of_ascii c with
  | 32%nat | 9%nat | 10%nat | 13%nat => true
  | _ => false
  end.

Fixpoint skip_ws (s : string) : string :=
  match s with
  | String c r => if is_ws c then skip_ws r else s
  | EmptyString => s
  end.

Definition digit (c : ascii) : option Z :=
  let n := Z.of_nat (Ascii.nat_of_ascii c) in
  if (48 <=? n) && (n <=? 57) then Some (n - 48) else None.

(** The character an escape [\e] stands for. *)
Definition unescape (e : ascii) : option ascii :=
  match Ascii.nat_of_ascii e with
  | 34%nat => Some (Ascii.ascii_of_nat 34)
  | 92%nat => Some (Ascii.ascii_of_nat 92)
  | 47%nat => Some (Ascii.ascii_of_nat 47)
  | 98%nat => Some (Ascii.ascii_of_nat 8)
  | 102%nat => Some (Ascii.ascii_of_nat 12)
  | 110%nat => Some (Ascii.ascii_of_nat 10)
  | 114%nat => Some (Ascii.ascii_of_nat 13)
  | 116%nat => Some (Ascii.ascii_of_nat 9)
  | _ => None
  end.

(** The rest of a string literal after its opening quote: the decoded
    text and what follows the closing quote. *)
Fixpoint string_body (s : string) : option (string * string) :=
  match s with
  | EmptyString => None
  | String c r =>
      match Ascii.nat_of_ascii c with
      | 34%nat => Some (EmptyString, r)
      | 92%nat =>
          match r with
          | String e r' =>
              match unescape e, string_body r' with
              | Some x, Some (t, rest) => Some (String x t, rest)
              | _, _ => None
              end
          | EmptyString => None
          end
      | n =>
          if (n <? 32)%nat then None
          else match string_body r with
               | Some (t, rest) => Some (String c t, rest)
               | None => None
               end
      end
  end.

(** The digits at the head of [s], read after the value [acc]. *)
Fixpoint digits (s : string) (acc : Z) : Z * string :=
  match s with
  | String c r =>
      match digit c with
      | Some d => digits r (10 * acc + d)
      | None => (acc, s)
      end
  | EmptyString => (acc, s)
  end.

(** An integer without sign; a fraction or an exponent is not read. *)
Definition natural (s : string) : option (Z * string) :=
  match s with
  | String c r =>
      match digit c with
      | Some 0 =>
          match r with
          | String c' _ => if bool_decide (is_Some (digit c')) then None else Some (0, r)
          | EmptyString => Some (0, r)
          end
      | Some d => Some (digits r d)
      | None => None
      end
  | EmptyString => None
  end.

Definition not_fraction (s : string) : bool :=
  match s with
  | String c _ =>
      match Ascii.nat_of_ascii c with
      | 46%nat | 101%nat | 69%nat => false
      | _ => true
      end
  | EmptyString => true
  end.

Fixpoint strip_prefix (p s : string) : option string :=
  match p, s with
  | EmptyString, _ => Some s
  | String a p', String b s' => if Ascii.eqb a b then strip_prefix p' s' else None
  | String _ _, EmptyString => None
  end.

Definition literal (s : string) : option (json * string) :=
  match strip_prefix "true" s, strip_prefix "false" s, strip_prefix "null" s with
  | Some r, _, _ => Some (JBool true, r)
  | _, Some r, _ => Some (JBool false, r)
  | _, _, Some r => Some (JNull, r)
  | _, _, _ => None
  end.

Definition scalar (s : string) : option (json * string) :=
  match s with
  | String c r =>
      match Ascii.nat_of_ascii c with
      | 34%nat =>
          match string_body r with
          | Some (t, rest) => Some (JStr t, rest)
          | None => None
          end
      | 45%nat =>
          match natural r with
          | Some (n, rest) => if not_fraction rest then Some (JNum (- n), rest) else None
          | None => None
          end
      | _ =>
          match natural s with
          | Some (n, rest) => if not_fraction rest then Some (JNum n, rest) else None
          | None => literal s
          end
      end
  | EmptyString => None
  end.

(** One value at the head of [s] (after white space), and the rest.
    [elements] and [members] read what follows an opening bracket or a
    comma; [acc] holds what was read, last first. *)
Fixpoint value (fuel : nat) (s : string) : option (json * string) :=
  match fuel with
  | O => None
  | S fuel' =>
      match skip_ws s with
      | String c r =>
          match Ascii.nat_of_ascii c with
          | 91%nat =>
              match skip_ws r with
              | String c' r' =>
                  if Ascii.eqb c' "]" then Some (JArr [], r') else elements fuel' r []
              | EmptyString => None
              end
          | 123%nat =>
              match skip_ws r with
              | String c' r' =>
                  if Ascii.eqb c' "}" then Some (JObj [], r') else members fuel' r []
              | EmptyString => None
              end
          | _ => scalar (String c r)
          end
      | EmptyString => None
      end
  end
with elements (fuel : nat) (s : string) (acc : list json) : option (json * string) :=
  match fuel with
  | O => None
  | S fuel' =>
      match value fuel' s with
      | Some (v, r) =>
          match skip_ws r with
          | String c r' =>
              if Ascii.eqb c "," then elements fuel' r' (v :: acc)
              else if Ascii.eqb c "]" then Some (JArr (List.rev (v :: acc)), r')
              else None
          | EmptyString => None
          end
      | None => None
      end
  end
with members (fuel : nat) (s : string) (acc : list (string * json)) : option (json * string) :=
  match fuel with
  | O => None
  | S fuel' =>
      match skip_ws s with
      | String q r =>
          if Ascii.eqb q PyStr.dquote then
            match string_body r with
            | Some (k, r1) =>
                match skip_ws r1 with
                | String c r2 =>
                    if Ascii.eqb c ":" then
                      match value fuel' r2 with
                      | Some (v, r3) =>
                          match skip_ws r3 with
                          | String c' r4 =>
                              if Ascii.eqb c' "," then members fuel' r4 ((k, v) :: acc)
                              else if Ascii.eqb c' "}"
                                   then Some (JObj (List.rev ((k, v) :: acc)), r4)
                                   else None
                          | EmptyString => None
                          end
                      | None => None
                      end
                    else None
                | EmptyString => None
                end
            | None => None
            end
          else None
      | EmptyString => None
      end
  end.

(** A whole document: one value and nothing but white space after it. *)
Definition loads (s : string) : option json :=
  match value (2 * String.length s + 2) s with
  | Some (v, r) =>
      match skip_ws r with
      | EmptyString => Some v
      | String _ _ => None
      end
  | None => None
  end.

(** The value at key [k]; of two members with one key the later counts. *)
Fixpoint lookup (k : string) (m : list (string * json)) : option json :=
  match m with
  | [] => None
  | (k', v) :: m' =>
      match lookup k m' with
      | Some w => Some w
      | None => if String.eqb k' k then Some v else None
      end
  end.

Fixpoint keys (m : list (string * json)) : gset string :=
  match m with
  | [] => ∅
  | (k, _) :: m' => {[k]} ∪ keys m'
  end.

Definition as_string (j : json) : option string :=
  match j with JStr s => Some s | _ => None end.

Fixpoint as_strings (l : list json) : option (list string) :=
  match l with
  | [] => Some []
  | j :: l' =>
      match as_string j, as_strings l' with
      | Some s, Some ss => Some (s :: ss)
      | _, _ => None
      end
  end.

Definition as_string_list (j : json) : option (list string) :=
  match j with JArr l => as_strings l | _ => None end.

(** A field of the data model: absent, or a value of its type.  The outer
    [None] is a value of another type, which the data model excludes. *)
Definition field {A : Type} (read : json -> option A) (k : string)
    (m : list (string * json)) : option (option A) :=
  match lookup k m with
  | None => Some None
  | Some j =>
      match read j with
      | Some x => Some (Some x)
      | None => None
      end
  end.

Definition model_keys : gset string :=
  {["company_name"; "primary_sectors"; "secondary_sectors"; "reasoning"; "confidence"]}.

Definition as_analysis (j : json) : option AnalysisResult :=
  match j with
  | JObj m =>
      match field as_string "company_name" m,
            field as_string_list "primary_sectors" m,
            field as_string_list "secondary_sectors" m,
            field as_string "reasoning" m,
            field as_string "confidence" m with
      | Some n, Some p, Some q, Some r, Some c =>
          Some {| company_name := n; primary_sectors := p; secondary_sectors := q;
                  reasoning := r; confidence := c;
                  other_keys := size (keys m ∖ model_keys) |}
      | _, _, _, _, _ => None
      end
  | _ => None
  end.

(** [json.loads] on sample documents of the data model, to run the program
    on concrete answers.  It reads less than [json.loads]: a document with a
    fraction, an exponent, a [\u] escape or [NaN], and a document whose
    fields have other types than the data model gives them, get [None] here
    although [json.loads] parses them.  It stands in for [json.loads] only
    on the sample texts of this file, where the two agree; the theorems are
    stated for every parser. *)
Definition loads_analysis (s : string) : option AnalysisResult :=
  match loads s with
  | Some j => as_analysis j
  | None => None
  end.

End Json.

(** ** The prompt *)

(** [ANALYSIS_PROMPT.format(company_name=.., company_description=..)]: the
    template is the three texts around the two fields. *)
Definition ANALYSIS_PROMPT_head : string :=
  "
You are an expert at analyzing companies in the education sector. 

Please analyze the following company and categorize it based on which sector of education their products and services serve:

Company: ".

Definition ANALYSIS_PROMPT_middle : string :=
  "
Description: ".

Definition ANALYSIS_PROMPT_tail : string :=
  Eval vm_compute in PyStr.quoted "`" "

Please provide your analysis in the following JSON format:
{
    `company_name`: `Company Name`,
    `primary_sectors`: [`list of primary education sectors`],
    `secondary_sectors`: [`list of secondary education sectors`],
    `reasoning`: `Brief explanation of your analysis`,
    `confidence`: `High/Medium/Low`
}

Education sector categories:
- K-12: Elementary, middle, and high school education
- Higher Education: Universities, colleges, community colleges
- Workforce Learning: Professional training, skill development, corporate training
- Corporate Development: Leadership development, executive education
- Other: EdTech tools, platforms, or services that don't fit above categories

Be specific and provide clear reasoning for your categorization.
".

Definition format_prompt (company_name company_description : string) : string :=
  ANALYSIS_PROMPT_head +:+ company_name +:+ ANALYSIS_PROMPT_middle
    +:+ company_description +:+ ANALYSIS_PROMPT_tail.

(** ** The outbound call *)

(** What [openai.ChatCompletion.create(..)] followed by
    [response.choices[0].message.content] comes to: an exception, of which
    the script uses [str(e)], or the text of the answer. *)
Inductive completion : Type :=
  | Raised (cause : string)
  | Answered (content : string).

(** The service as one run of the script meets it: model, messages (role and
    content), [max_tokens], and the temperature in hundredths. *)
Definition ChatCompletion : Type :=
  string -> list (string * string) -> Z -> Z -> completion.

Definition model_options : list string :=
  [ "openai/gpt-4o";
    "meta-llama/llama-3.2-3b-instruct:free";
    "microsoft/phi-3-mini-128k-instruct:free";
    "google/gemma-2-9b-it:free";
    "mistralai/mistral-7b-instruct:free" ].

Definition TEAM_ASSIGNMENTS : list (string * string) :=
  [ ("K-12", "Mitch");
    ("Higher Education", "Mitch");
    ("K-12 + Higher Education", "Mitch");
    ("Workforce Learning", "Sam");
    ("Corporate Development", "Sam");
    ("Workforce + Corporate", "Sam");
    ("Other", "To be assigned") ].

(** ** The program *)

Section Program.

(** [json.loads] on the sliced text: [None] when it raises. *)
Variable json_loads : string -> option AnalysisResult.

(** The dictionary built in the [except:] branch of the extraction. *)
Definition fallback_analysis (company_name content : string) : AnalysisResult :=
  {| company_name := Some company_name;
     primary_sectors := Some ["Other"];
     secondary_sectors := Some [];
     reasoning := Some content;
     confidence := Some "Low";
     other_keys := 0 |}.

(** [json_str] of the inner [try]: the text from the first opening brace
    to the last closing brace. *)
Definition brace_span (content : string) : string :=
  let start := PyStr.find "{" content in
  let end_ := PyStr.rfind "}" content + 1 in
  PyStr.slice content start end_.

(** The inner [try] of [analyze_company]: parse the span; on any failure
    build the fallback. *)
Definition extract_analysis (company_name content : string) : AnalysisResult :=
  match json_loads (brace_span content) with
  | Some analysis => analysis
  | None => fallback_analysis company_name content
  end.

(** The two messages of the request. *)
Definition request_messages (company_name company_description : string)
    : list (string * string) :=
  [ ("system",
     "You are an expert education sector analyst. Always respond with valid JSON.");
    ("user",
     format_prompt company_name
       (if PyStr.truthy company_description then company_description
        else "No description provided")) ].

(** [analyze_company(company_name, company_description, model)]: what it
    shows and what it returns ([None] is Python's [None]). *)
Definition analyze_company (create : ChatCompletion)
    (company_name company_description model : string)
    : list widget * option AnalysisResult :=
  match create model (request_messages company_name company_description) 500 30 with
  | Answered content => ([], Some (extract_analysis company_name content))
  | Raised e => ([st_error ("Error analyzing company: " +:+ e)], None)
  end.

(** [analysis.get('primary_sectors', []) + analysis.get('secondary_sectors', [])] *)
Definition all_sectors (analysis : AnalysisResult) : list string :=
  default [] (primary_sectors analysis) ++ default [] (secondary_sectors analysis).

(** The results shown under [if analysis:]. *)
Definition show_results (analysis : AnalysisResult) : list widget :=
  [ st_success "Analysis complete!"; st_header "📊 Analysis Results";
    st_subheader "Education Sectors" ]
  ++ match primary_sectors analysis with
     | Some (p :: ps) => [ st_write ["**Primary:**"; PyStr.join ", " (p :: ps)] ]
     | _ => []
     end
  ++ match secondary_sectors analysis with
     | Some (p :: ps) => [ st_write ["**Secondary:**"; PyStr.join ", " (p :: ps)] ]
     | _ => []
     end
  ++ [ st_subheader "Team Assignment";
       st_write ["**Assigned to:** " +:+ get_team_assignment (all_sectors analysis)];
       st_write ["**Confidence:** " +:+ default "Medium" (confidence analysis)];
       st_subheader "Analysis Reasoning";
       st_write [default "No reasoning provided" (reasoning analysis)] ].

(** The widgets of a run and the service it can call. *)
Record Inputs : Type := mkInputs {
  company_name_input : string;
  company_description_input : string;
  selected_model : string;
  analyze_pressed : bool;
  service : ChatCompletion
}.

(** The first column: the form and, when the button was pressed, the
    analysis.  Only a truthy analysis is stored in the session. *)
Definition column1 (s : SessionState) (i : Inputs) : SessionState * list widget :=
  if analyze_pressed i then
    if PyStr.truthy (company_name_input i) then
      let '(shown, analysis) :=
        analyze_company (service i) (company_name_input i)
          (company_description_input i) (selected_model i) in
      match analysis with
      | Some a =>
          if analysis_truthy a
          then ({| last_analysis := Some a; analysis_history := analysis_history s |},
                shown ++ show_results a)
          else (s, shown)
      | None => (s, shown)
      end
    else (s, [st_warning "Please enter a company name"])
  else (s, []).

(** The second column: the static table. *)
Definition column2 : list widget :=
  [ st_header "Team Assignments"; st_write ["**Current assignment rules:**"] ]
  ++ map (fun '(sectors, member) => st_write ["• " +:+ sectors +:+ " → " +:+ member])
       TEAM_ASSIGNMENTS.

(** [if 'analysis_history' not in st.session_state: .. = []] *)
Definition init_history (s : SessionState) : SessionState :=
  match analysis_history s with
  | Some _ => s
  | None => {| last_analysis := last_analysis s; analysis_history := Some [] |}
  end.

(** [any(h.get('company_name') == analysis.get('company_name') for h in ..)],
    on names that are a [str] or absent, where [==] is equality. *)
Definition in_history (analysis : AnalysisResult) (history : list HistoryEntry) : bool :=
  existsb (fun h => bool_decide (entry_company_name h = company_name analysis)) history.

Definition history_entry (analysis : AnalysisResult) : HistoryEntry :=
  {| entry_company_name := company_name analysis;
     sectors := all_sectors analysis;
     assigned_to := get_team_assignment (all_sectors analysis);
     entry_confidence := default "Medium" (confidence analysis) |}.

(** The append of the last analysis, unless an entry has its name. *)
Definition add_to_history (s : SessionState) : SessionState :=
  match last_analysis s with
  | Some analysis =>
      if analysis_truthy analysis && negb (in_history analysis (entries s))
      then {| last_analysis := last_analysis s;
              analysis_history := Some (entries s ++ [history_entry analysis]) |}
      else s
  | None => s
  end.

(** [reversed(st.session_state.analysis_history[-10:])] *)
Definition displayed_history (history : list HistoryEntry) : list HistoryEntry :=
  List.rev (PyStr.list_slice_from history (-10)).

Definition show_item (item : HistoryEntry) : widget :=
  st_expander
    (PyStr.str_of_optional (entry_company_name item) +:+ " → " +:+ assigned_to item)
    [ st_write ["**Sectors:** " +:+ PyStr.join ", " (sectors item)];
      st_write ["**Confidence:** " +:+ entry_confidence item] ].

Definition show_history (history : list HistoryEntry) : list widget :=
  match history with
  | [] => []
  | _ => st_header "📈 Analysis History" :: map show_item (displayed_history history)
  end.

(** What stands above the form: the title, the line under it and the
    heading of the first column. *)
Definition page_intro : list widget :=
  [ st_title "🏢 Company Analysis Tool";
    st_write ["Analyze companies and assign team members based on education sector"];
    st_header "Company Information" ].

(** One execution of the script, top to bottom, as it goes for analyses of
    type [AnalysisResult]: on these no line raises and the run reaches its
    end.  The page is the main area; the sidebar, the input widgets and the
    spinner are left out.  A run that stops between line 166 and the append
    leaves the state of [column1]. *)
Definition script (s : SessionState) (i : Inputs) : SessionState * list widget :=
  let '(s1, shown1) := column1 s i in
  let s2 := add_to_history (init_history s1) in
  (s2, page_intro ++ shown1 ++ column2 ++ show_history (entries s2)).

(** A session: the script run once per interaction, from the empty state. *)
Definition session (runs : list Inputs) : SessionState :=
  fold_left (fun s i => fst (script s i)) runs initial_session.

End Program.

(** ** The rules as the specification words them *)

Module Spec.

Definition contains (label : string) (sectors : list string) : bool :=
  existsb (String.eqb label) sectors.

Definition is_empty (sectors : list string) : bool :=
  match sectors with [] => true | _ :: _ => false end.

(** Rules 1 to 6, the first that matches. *)
Definition six_rules (sectors : list string) : string :=
  if is_empty sectors then "To be assigned"
  else if contains "K-12" sectors && contains "Higher Education" sectors then "Mitch"
  else if contains "Workforce Learning" sectors && contains "Corporate Development" sectors
  then "Sam"
  else if contains "K-12" sectors || contains "Higher Education" sectors then "Mitch"
  else if contains "Workforce Learning" sectors || contains "Corporate Development" sectors
  then "Sam"
  else "To be assigned".

(** The same without rules 2 and 3. *)
Definition simplified_rules (sectors : list string) : string :=
  if is_empty sectors then "To be assigned"
  else if contains "K-12" sectors || contains "Higher Education" sectors then "Mitch"
  else if contains "Workforce Learning" sectors || contains "Corporate Development" sectors
  then "Sam"
  else "To be assigned".

(** A text without braces. *)
Definition brace_free (s : string) : Prop :=
  ~ PyStr.has_char "{" s /\ ~ PyStr.has_char "}" s.

(** No pair of braces to cut at: one of the two searches answers [-1]. *)
Definition no_brace_pair (content : string) : Prop :=
  PyStr.find "{" content = -1 \/ PyStr.rfind "}" content = -1.

(** The names the history holds, oldest first. *)
Definition names (s : SessionState) : list (option string) :=
  map entry_company_name (entries s).

(** What every run that reaches its end leaves behind: no name twice, and
    the stored analysis, a truthy one, has its name in the history. *)
Definition recorded (s : SessionState) : Prop :=
  List.NoDup (names s)
  /\ forall a, last_analysis s = Some a ->
       analysis_truthy a = true /\ In (company_name a) (names s).

(** An interaction that submits [name]: the button pressed with [name] in
    the name field. *)
Definition submits (name : string) (i : Inputs) : Prop :=
  analyze_pressed i = true /\ company_name_input i = name.

(** How many entries of the history carry the name [n]. *)
Definition entries_named (n : option string) (history : list HistoryEntry) : nat :=
  List.length (List.filter (fun h => bool_decide (entry_company_name h = n)) history).

End Spec.

(** ** Sample data *)

Module Samples.

(** A service that answers [content] to every request, and one whose call
    raises with message [cause]. *)
Definition answering (content : string) : ChatCompletion :=
  fun _ _ _ _ => Answered content.

Definition failing (cause : string) : ChatCompletion :=
  fun _ _ _ _ => Raised cause.

(** The button pressed with [name] in the name field. *)
Definition submit (name : string) (create : ChatCompletion) : Inputs :=
  {| company_name_input := name;
     company_description_input := "";
     selected_model := "openai/gpt-4o";
     analyze_pressed := true;
     service := create |}.

(** The object of the round-trip example, without its braces. *)
Definition acme_body : string :=
  Eval vm_compute in
    PyStr.quoted "'"
      "'company_name':'Acme','primary_sectors':['K-12'],'secondary_sectors':[],'reasoning':'x','confidence':'High'".

Definition acme : AnalysisResult :=
  {| company_name := Some "Acme";
     primary_sectors := Some ["K-12"];
     secondary_sectors := Some [];
     reasoning := Some "x";
     confidence := Some "High";
     other_keys := 0 |}.

(** A text whose span is no JSON, with a name inside. *)
Definition broken_text : string :=
  Eval vm_compute in PyStr.quoted "'" "Sure! {'company_name': 'Initech', sectors: K-12}".

(** Two answers to a submission of "Acme" that name the company otherwise. *)
Definition acme_corp_text : string :=
  Eval vm_compute in
    PyStr.quoted "'" "{'company_name':'Acme Corp','primary_sectors':['K-12']}".

Definition acme_inc_text : string :=
  Eval vm_compute in
    PyStr.quoted "'" "{'company_name':'Acme Inc','primary_sectors':['K-12']}".

(** The answer of the end-to-end scenario. *)
Definition khan_text : string :=
  Eval vm_compute in
    PyStr.quoted "'"
      "Here is the analysis: {'company_name':'Khan Academy','primary_sectors':['K-12'],'confidence':'High'}".

Definition entry_named (name : string) : HistoryEntry :=
  {| entry_company_name := Some name; sectors := ["K-12"]; assigned_to := "Mitch";
     entry_confidence := "High" |}.

(** Twelve entries, oldest first. *)
Definition twelve_entries : list HistoryEntry :=
  map entry_named ["a"; "b"; "c"; "d"; "e"; "f"; "g"; "h"; "i"; "j"; "k"; "l"].

End Samples.

(** ** Notions for the behaviour of a run *)

Module Run.

(** The button pressed with a name in the field: the only interaction that
    reaches [analyze_company]. *)
Definition requests (i : Inputs) : bool :=
  analyze_pressed i && PyStr.truthy (company_name_input i).

(** The completion a run receives if it asks. *)
Definition outcome (i : Inputs) : completion :=
  service i (selected_model i)
    (request_messages (company_name_input i) (company_description_input i)) 500 30.

(** The analysis with its two sector fields exchanged. *)
Definition swap_sectors (a : AnalysisResult) : AnalysisResult :=
  {| company_name := company_name a;
     primary_sectors := secondary_sectors a;
     secondary_sectors := primary_sectors a;
     reasoning := reasoning a;
     confidence := confidence a;
     other_keys := other_keys a |}.

(** The entry an unparsed answer to a submission of [name] leaves. *)
Definition fallback_entry (name : string) : HistoryEntry :=
  {| entry_company_name := Some name;
     sectors := ["Other"];
     assigned_to := "To be assigned";
     entry_confidence := "Low" |}.

(** The five sector categories of the prompt. *)
Definition sector_categories : list string :=
  ["K-12"; "Higher Education"; "Workforce Learning"; "Corporate Development"; "Other"].

(** An entry whose assignment is the resolver's answer on its sectors. *)
Definition consistent (h : HistoryEntry) : Prop :=
  assigned_to h = get_team_assignment (sectors h).





(** Interactions to run the script on: a first analysis of "Acme Corp", a
    later answer that gives the same name other sectors, an answer that is
    the empty object, one that does not parse, a call that raises, the
    button pressed without a name, and a rerun without the button. *)
Definition first_acme : Inputs :=
  Samples.submit "Acme" (Samples.answering Samples.acme_corp_text).

Definition acme_corp_again_text : string :=
  Eval vm_compute in
    PyStr.quoted "'"
      "{'company_name':'Acme Corp','primary_sectors':['Workforce Learning'],'confidence':'Low'}".

Definition second_acme : Inputs :=
  Samples.submit "Acme" (Samples.answering acme_corp_again_text).


Definition unparsed : Inputs :=
  Samples.submit "Globex" (Samples.answering Samples.broken_text).

Definition refused : Inputs :=
  Samples.submit "Globex" (Samples.failing "Connection refused").



End Run.

(** * Verification *)

(** ** The resolver *)

Section Resolver.

Implicit Types (sectors : list string) (label : string).

Lemma contains_elem_of label sectors :
  Spec.contains label sectors = bool_decide (label ∈ sectors).
Proof.
  unfold Spec.contains. induction sectors as [|x xs IH]; cbn [existsb].
  - symmetry. apply bool_decide_eq_false_2. apply not_elem_of_nil.
  - rewrite IH. destruct (String.eqb_spec label x) as [->|Hne]; cbn [orb].
    + symmetry. apply bool_decide_eq_true_2. apply list_elem_of_here.
    + apply bool_decide_ext. rewrite elem_of_cons.
      split; [auto | intros [Heq|Hin]; [contradiction | assumption]].
Qed.

Lemma in_sector_set label sectors :
  bool_decide (label ∈ (list_to_set sectors : gset string)) = Spec.contains label sectors.
Proof.
  rewrite contains_elem_of. apply bool_decide_ext. apply elem_of_list_to_set.
Qed.

Lemma pair_in_sector_set a b sectors :
  bool_decide (({[a; b]} : gset string) ⊆ list_to_set sectors)
  = Spec.contains a sectors && Spec.contains b sectors.
Proof.
  rewrite <- !in_sector_set, <- bool_decide_and. apply bool_decide_ext. split.
  - intros Hsub. split; apply Hsub; apply elem_of_union; [left|right];
      apply elem_of_singleton; reflexivity.
  - intros [Ha Hb] x Hx. apply elem_of_union in Hx as [Hx|Hx];
      apply elem_of_singleton in Hx; subst x; assumption.
Qed.

(** The resolver in terms of list membership only. *)
Lemma get_team_assignment_unfold sectors :
  get_team_assignment sectors = Spec.six_rules sectors.
Proof.
  unfold get_team_assignment, Spec.six_rules.
  destruct sectors as [|x xs]; [reflexivity|].
  cbv [Spec.is_empty]. rewrite !pair_in_sector_set, !in_sector_set. reflexivity.
Qed.

Lemma contains_perm label sectors sectors' :
  Permutation sectors sectors' -> Spec.contains label sectors = Spec.contains label sectors'.
Proof.
  intros Hp. rewrite !contains_elem_of. apply bool_decide_ext.
  split; intros H; [rewrite <- Hp | rewrite Hp]; exact H.
Qed.

Lemma is_empty_perm sectors sectors' :
  Permutation sectors sectors' -> Spec.is_empty sectors = Spec.is_empty sectors'.
Proof.
  intros Hp. destruct sectors, sectors'; try reflexivity.
  - apply Permutation_nil_cons in Hp. destruct Hp.
  - symmetry in Hp. apply Permutation_nil_cons in Hp. destruct Hp.
Qed.

Lemma contains_false label sectors :
  ~ In label sectors -> Spec.contains label sectors = false.
Proof.
  intros H. rewrite contains_elem_of. apply bool_decide_eq_false_2.
  rewrite list_elem_of_In. exact H.
Qed.

End Resolver.

(** C1.  For every list of sector labels the resolver answers what the six
    precedence rules give, the first matching rule deciding: an empty input
    gives "To be assigned"; both "K-12" and "Higher Education" give "Mitch";
    otherwise both "Workforce Learning" and "Corporate Development" give
    "Sam"; otherwise one of "K-12", "Higher Education" gives "Mitch";
    otherwise one of "Workforce Learning", "Corporate Development" gives
    "Sam"; otherwise "To be assigned". *)
Theorem resolver_six_rules (sectors : list string) :
  get_team_assignment sectors = Spec.six_rules sectors
  /\ (get_team_assignment sectors = "Mitch"
      \/ get_team_assignment sectors = "Sam"
      \/ get_team_assignment sectors = "To be assigned").
Proof.
  split; [apply get_team_assignment_unfold|].
  rewrite get_team_assignment_unfold. unfold Spec.six_rules.
  repeat match goal with |- context [if ?b then _ else _] => destruct b end; auto.
Qed.

(** C6.  The resolver is independent of the order of its input: on a list
    and on any permutation of it the answer is the same. *)
Theorem resolver_order_independent (sectors sectors' : list string) :
  Permutation sectors sectors' ->
  get_team_assignment sectors = get_team_assignment sectors'.
Proof.
  intros Hp. rewrite !get_team_assignment_unfold. unfold Spec.six_rules.
  rewrite (is_empty_perm _ _ Hp).
  rewrite (contains_perm "K-12" _ _ Hp), (contains_perm "Higher Education" _ _ Hp),
    (contains_perm "Workforce Learning" _ _ Hp),
    (contains_perm "Corporate Development" _ _ Hp).
  reflexivity.
Qed.

Lemma resolver_order_independent_witness :
  Permutation ["Other"; "Workforce Learning"; "K-12"] ["K-12"; "Other"; "Workforce Learning"]
  /\ get_team_assignment ["Other"; "Workforce Learning"; "K-12"]
     = get_team_assignment ["K-12"; "Other"; "Workforce Learning"].
Proof.
  assert (Hp : Permutation ["Other"; "Workforce Learning"; "K-12"]
                 ["K-12"; "Other"; "Workforce Learning"]).
  { apply Permutation_sym.
    apply (Permutation_cons_app ["Other"; "Workforce Learning"] [] "K-12").
    apply Permutation_refl. }
  split; [exact Hp | exact (resolver_order_independent _ _ Hp)].
Defined.

(** The inputs on which rule 3 decides against rule 4: both workforce labels
    and exactly one of the two school labels. *)
Lemma resolver_rules_differ_iff (sectors : list string) :
  get_team_assignment sectors <> Spec.simplified_rules sectors
  <-> Spec.contains "Workforce Learning" sectors
      && Spec.contains "Corporate Development" sectors
      && xorb (Spec.contains "K-12" sectors) (Spec.contains "Higher Education" sectors)
      = true.
Proof.
  rewrite get_team_assignment_unfold. unfold Spec.six_rules, Spec.simplified_rules.
  destruct sectors as [|x xs]; cbv [Spec.is_empty].
  - cbn. split; [intros H; contradiction H; reflexivity | discriminate].
  - destruct (Spec.contains "K-12" (x :: xs)), (Spec.contains "Higher Education" (x :: xs)),
      (Spec.contains "Workforce Learning" (x :: xs)),
      (Spec.contains "Corporate Development" (x :: xs)); cbn;
      split; intros H; congruence.
Qed.

(** C7, as the code has it.  Rules 2 and 3 are redundant except where rule 3
    decides: on every input that does not hold both "Workforce Learning" and
    "Corporate Development" together with exactly one of "K-12" and "Higher
    Education", the resolver as written answers what the resolver without
    rules 2 and 3 answers; on the inputs excepted it answers "Sam" where the
    simplified resolver answers "Mitch". *)
Theorem resolver_rules_2_3_redundant_unless_rule_3 (sectors : list string) :
  (Spec.contains "Workforce Learning" sectors
   && Spec.contains "Corporate Development" sectors
   && xorb (Spec.contains "K-12" sectors) (Spec.contains "Higher Education" sectors)
   = false ->
   get_team_assignment sectors = Spec.simplified_rules sectors)
  /\ (Spec.contains "Workforce Learning" sectors
      && Spec.contains "Corporate Development" sectors
      && xorb (Spec.contains "K-12" sectors) (Spec.contains "Higher Education" sectors)
      = true ->
      get_team_assignment sectors = "Sam" /\ Spec.simplified_rules sectors = "Mitch").
Proof.
  rewrite get_team_assignment_unfold. unfold Spec.six_rules, Spec.simplified_rules.
  destruct sectors as [|x xs]; cbv [Spec.is_empty].
  - cbn. split; [reflexivity | discriminate].
  - destruct (Spec.contains "K-12" (x :: xs)), (Spec.contains "Higher Education" (x :: xs)),
      (Spec.contains "Workforce Learning" (x :: xs)),
      (Spec.contains "Corporate Development" (x :: xs)); cbn;
      split; intros H; try discriminate H; try reflexivity; split; reflexivity.
Qed.

Lemma resolver_rules_2_3_redundant_unless_rule_3_witness :
  get_team_assignment ["K-12"; "Higher Education"; "Workforce Learning"; "Corporate Development"]
  = Spec.simplified_rules
      ["K-12"; "Higher Education"; "Workforce Learning"; "Corporate Development"]
  /\ get_team_assignment ["Higher Education"; "Corporate Development"; "Workforce Learning"]
     = "Sam"
  /\ Spec.simplified_rules ["Higher Education"; "Corporate Development"; "Workforce Learning"]
     = "Mitch".
Proof.
  split.
  - apply (proj1 (resolver_rules_2_3_redundant_unless_rule_3
                    ["K-12"; "Higher Education"; "Workforce Learning";
                     "Corporate Development"])).
    reflexivity.
  - apply (proj2 (resolver_rules_2_3_redundant_unless_rule_3
                    ["Higher Education"; "Corporate Development"; "Workforce Learning"])).
    reflexivity.
Defined.

(** C7 as stated fails: with "K-12" beside both workforce labels rule 3
    answers "Sam" before rule 4 is reached, and the resolver without rules 2
    and 3 answers "Mitch". *)
Lemma resolver_rules_2_3_not_redundant :
  get_team_assignment ["K-12"; "Workforce Learning"; "Corporate Development"] = "Sam"
  /\ Spec.simplified_rules ["K-12"; "Workforce Learning"; "Corporate Development"] = "Mitch"
  /\ ~ (forall sectors : list string,
          get_team_assignment sectors = Spec.simplified_rules sectors).
Proof.
  assert (Hs : get_team_assignment ["K-12"; "Workforce Learning"; "Corporate Development"]
               = "Sam") by (vm_compute; reflexivity).
  assert (Hm : Spec.simplified_rules ["K-12"; "Workforce Learning"; "Corporate Development"]
               = "Mitch") by reflexivity.
  split; [exact Hs | split; [exact Hm |]].
  intros Hall. specialize (Hall ["K-12"; "Workforce Learning"; "Corporate Development"]).
  rewrite Hs, Hm in Hall. discriminate Hall.
Qed.

(** C10.  Matching is exact string equality: an input holding none of the
    four labels "K-12", "Higher Education", "Workforce Learning",
    "Corporate Development" as an element, such as ["k-12"] or ["K-12 "],
    gives "To be assigned". *)
Theorem resolver_exact_match (sectors : list string) :
  ~ In "K-12" sectors ->
  ~ In "Higher Education" sectors ->
  ~ In "Workforce Learning" sectors ->
  ~ In "Corporate Development" sectors ->
  get_team_assignment sectors = "To be assigned".
Proof.
  intros Hk Hh Hw Hc. rewrite get_team_assignment_unfold. unfold Spec.six_rules.
  rewrite (contains_false _ _ Hk), (contains_false _ _ Hh),
    (contains_false _ _ Hw), (contains_false _ _ Hc).
  destruct (Spec.is_empty sectors); reflexivity.
Qed.

Lemma resolver_exact_match_witness :
  get_team_assignment ["k-12"; "K-12 "; "higher education"] = "To be assigned".
Proof.
  apply resolver_exact_match; simpl; intros H;
    repeat (destruct H as [H|H]; [discriminate H|]); exact H.
Defined.

(** ** Facts on [find], [rfind] and slices *)

Section StringFacts.

Implicit Types (s p q : string) (c a : ascii) (i best : Z).

Lemma len_nonneg s : 0 <= PyStr.len s.
Proof. unfold PyStr.len. lia. Qed.

Lemma len_cons a s : PyStr.len (String a s) = PyStr.len s + 1.
Proof. unfold PyStr.len. cbn [String.length]. lia. Qed.

Lemma app_cons a p q : String a p +:+ q = String a (p +:+ q).
Proof. reflexivity. Qed.

Lemma app_empty q : "" +:+ q = q.
Proof. reflexivity. Qed.

Lemma app_empty_r s : s +:+ "" = s.
Proof. induction s as [|a s IH]; [reflexivity|]. rewrite app_cons, IH. reflexivity. Qed.

Lemma len_app p q : PyStr.len (p +:+ q) = PyStr.len p + PyStr.len q.
Proof.
  induction p as [|a p IH]; [reflexivity|].
  rewrite app_cons, !len_cons, IH. lia.
Qed.

Lemma substring_nothing (n : nat) s : String.substring n 0 s = "".
Proof.
  revert n. induction s as [|a s IH]; intros [|n]; cbn; try reflexivity. apply IH.
Qed.

Lemma substring_whole s q : String.substring 0 (String.length s) (s +:+ q) = s.
Proof.
  induction s as [|a s IH]; [apply substring_nothing|].
  rewrite app_cons. cbn [String.length String.substring]. now rewrite IH.
Qed.

Lemma substring_after p (m : nat) s :
  String.substring (String.length p) m (p +:+ s) = String.substring 0 m s.
Proof.
  induction p as [|a p IH]; [reflexivity|].
  rewrite app_cons. cbn [String.length String.substring]. exact IH.
Qed.

Lemma adjust_index_range (n i : Z) :
  0 <= n -> 0 <= PyStr.adjust_index n i <= n.
Proof. intros Hn. unfold PyStr.adjust_index. destruct (i <? 0) eqn:E; lia. Qed.

Lemma adjust_index_inside (n i : Z) :
  0 <= i <= n -> PyStr.adjust_index n i = i.
Proof. intros Hi. unfold PyStr.adjust_index. destruct (i <? 0) eqn:E; lia. Qed.

(** [find] answers [-1] or an index of the text. *)
Lemma find_from_range c s i :
  PyStr.find_from c s i = -1
  \/ i <= PyStr.find_from c s i < i + PyStr.len s.
Proof.
  revert i. induction s as [|a s IH]; intros i; cbn [PyStr.find_from]; [now left|].
  rewrite len_cons. pose proof (len_nonneg s).
  destruct (Ascii.eqb a c); [right; lia|].
  destruct (IH (i + 1)) as [->|Hr]; [now left | right; lia].
Qed.

(** [rfind] answers what was found before, or an index of the text. *)
Lemma rfind_from_range c s i best :
  PyStr.rfind_from c s i best = best
  \/ i <= PyStr.rfind_from c s i best < i + PyStr.len s.
Proof.
  revert i best. induction s as [|a s IH]; intros i best; cbn [PyStr.rfind_from];
    [now left|].
  rewrite len_cons. pose proof (len_nonneg s).
  destruct (IH (i + 1) (if Ascii.eqb a c then i else best)) as [->|Hr]; [|right; lia].
  destruct (Ascii.eqb a c); [right; lia | now left].
Qed.

Lemma rfind_range c s :
  PyStr.rfind c s = -1 \/ 0 <= PyStr.rfind c s < PyStr.len s.
Proof. apply (rfind_from_range c s 0 (-1)). Qed.

(** When [rfind] answers the last index, the last character is the needle. *)
Lemma rfind_from_last c s i best :
  best < i ->
  PyStr.rfind_from c s i best = i + PyStr.len s - 1 ->
  s <> "" ->
  String.substring (String.length s - 1) 1 s = String c "".
Proof.
  revert i best. induction s as [|a s IH]; intros i best Hb Hr Hne; [congruence|].
  cbn [PyStr.rfind_from] in Hr. rewrite len_cons in Hr.
  destruct s as [|a' s'].
  - cbn [PyStr.rfind_from] in Hr. change (PyStr.len "") with 0 in Hr.
    destruct (Ascii.eqb_spec a c) as [->|Hac]; [reflexivity | lia].
  - assert (Hlen : (String.length (String a (String a' s')) - 1
                    = S (String.length (String a' s') - 1))%nat)
      by (cbn [String.length]; lia).
    rewrite Hlen. cbn [String.substring].
    apply (IH (i + 1) (if Ascii.eqb a c then i else best)).
    + destruct (Ascii.eqb a c); lia.
    + rewrite Hr. lia.
    + discriminate.
Qed.

(** The needle is found behind a text that lacks it. *)
Lemma find_from_skip c p s i :
  ~ PyStr.has_char c p ->
  PyStr.find_from c (p +:+ s) i = PyStr.find_from c s (i + PyStr.len p).
Proof.
  revert i. induction p as [|a p IH]; intros i Hp.
  - rewrite app_empty. f_equal. unfold PyStr.len. cbn. lia.
  - rewrite app_cons. cbn [PyStr.find_from]. cbn [PyStr.has_char] in Hp.
    destruct (Ascii.eqb_spec a c) as [->|Hac]; [tauto|].
    rewrite IH by tauto. rewrite len_cons. f_equal. lia.
Qed.

Lemma rfind_from_app c p s i best :
  PyStr.rfind_from c (p +:+ s) i best
  = PyStr.rfind_from c s (i + PyStr.len p) (PyStr.rfind_from c p i best).
Proof.
  revert i best. induction p as [|a p IH]; intros i best.
  - rewrite app_empty. f_equal. unfold PyStr.len. cbn. lia.
  - rewrite app_cons. cbn [PyStr.rfind_from]. rewrite IH, len_cons. f_equal. lia.
Qed.

Lemma rfind_from_absent c q i best :
  ~ PyStr.has_char c q -> PyStr.rfind_from c q i best = best.
Proof.
  revert i best. induction q as [|a q IH]; intros i best Hq; cbn [PyStr.rfind_from];
    [reflexivity|].
  cbn [PyStr.has_char] in Hq.
  destruct (Ascii.eqb_spec a c) as [->|Hac]; [tauto|]. apply IH. tauto.
Qed.

(** The slice between two indices of a concatenation. *)
Lemma slice_middle p s q :
  PyStr.slice (p +:+ s +:+ q) (PyStr.len p) (PyStr.len p + PyStr.len s) = s.
Proof.
  unfold PyStr.slice. pose proof (len_nonneg p). pose proof (len_nonneg s).
  pose proof (len_nonneg q).
  rewrite !adjust_index_inside by (rewrite !len_app; lia).
  replace (Z.to_nat (PyStr.len p)) with (String.length p) by (unfold PyStr.len; lia).
  replace (Z.to_nat (PyStr.len p + PyStr.len s - PyStr.len p)) with (String.length s)
    by (unfold PyStr.len; lia).
  rewrite substring_after. apply substring_whole.
Qed.

(** Slices as Python cuts them, the bounds of a failed search included. *)
Example slices_run :
  PyStr.slice "abcdef" (-1) 6 = "f"
  /\ PyStr.slice "abcdef" (-1) 0 = ""
  /\ PyStr.slice "ab}" (PyStr.find "{" "ab}") (PyStr.rfind "}" "ab}" + 1) = "}"
  /\ PyStr.slice "} {" (PyStr.find "{" "} {") (PyStr.rfind "}" "} {" + 1) = ""
  /\ PyStr.slice "a{b}c}d" (PyStr.find "{" "a{b}c}d") (PyStr.rfind "}" "a{b}c}d" + 1)
     = "{b}c}"
  /\ PyStr.list_slice_from [1; 2; 3] (-10) = [1; 2; 3]
  /\ PyStr.join ", " ["a"; "b"; "c"] = "a, b, c".
Proof. repeat (split; [vm_compute; reflexivity|]). vm_compute. reflexivity. Qed.

End StringFacts.

(** ** The extractor *)

Section Extractor.

Variable json_loads : string -> option AnalysisResult.

Implicit Types (content name prefix body suffix : string).

(** Between a text without opening brace and a text without closing
    brace, the span of a text that opens and closes with a brace is that
    text. *)
Lemma brace_span_between prefix suffix (text inner inner' : string) :
  ~ PyStr.has_char "{" prefix ->
  ~ PyStr.has_char "}" suffix ->
  text = String "{" inner ->
  text = inner' +:+ "}" ->
  brace_span (prefix +:+ text +:+ suffix) = text.
Proof.
  intros Hp Hs Hopen Hclose.
  assert (Hf : PyStr.find "{" (prefix +:+ text +:+ suffix) = PyStr.len prefix).
  { unfold PyStr.find. rewrite find_from_skip by exact Hp.
    rewrite Hopen, app_cons. cbn [PyStr.find_from]. rewrite Ascii.eqb_refl. lia. }
  assert (Hr : PyStr.rfind "}" (prefix +:+ text +:+ suffix) + 1
               = PyStr.len prefix + PyStr.len text).
  { unfold PyStr.rfind. rewrite rfind_from_app, rfind_from_app.
    rewrite (rfind_from_absent _ suffix) by exact Hs.
    rewrite Hclose at 1. rewrite rfind_from_app. cbn [PyStr.rfind_from].
    rewrite Ascii.eqb_refl, Hclose, len_app. change (PyStr.len "}") with 1. lia. }
  unfold brace_span. cbv zeta. rewrite Hf, Hr. apply slice_middle.
Qed.

Lemma brace_span_object prefix body suffix :
  ~ PyStr.has_char "{" prefix ->
  ~ PyStr.has_char "}" suffix ->
  brace_span (prefix +:+ ("{" +:+ body +:+ "}") +:+ suffix) = "{" +:+ body +:+ "}".
Proof.
  intros Hp Hs.
  apply (brace_span_between prefix suffix _ (body +:+ "}") ("{" +:+ body) Hp Hs);
    reflexivity.
Qed.

(** Without a pair of braces the span is empty or the lone closing brace. *)
Lemma brace_span_no_pair content :
  Spec.no_brace_pair content ->
  brace_span content = "" \/ brace_span content = "}".
Proof.
  intros Hno. unfold brace_span, PyStr.slice. cbv zeta.
  pose proof (len_nonneg content) as Hn.
  pose proof (rfind_range "}" content) as Hr.
  set (n := PyStr.len content) in *.
  set (r := PyStr.rfind "}" content) in *.
  set (lo := PyStr.adjust_index n (PyStr.find "{" content)).
  set (hi := PyStr.adjust_index n (r + 1)).
  assert (Hlo : 0 <= lo <= n) by (apply adjust_index_range; exact Hn).
  destruct Hr as [Hr|Hr].
  - left. assert (Hhi : hi = 0)
      by (subst hi; rewrite Hr; apply adjust_index_inside; lia).
    replace (Z.to_nat (hi - lo)) with 0%nat by lia. apply substring_nothing.
  - destruct Hno as [Hf|Hr']; [|fold r in Hr'; lia].
    assert (Hhi : hi = r + 1) by (subst hi; apply adjust_index_inside; lia).
    assert (Hlo' : lo = n - 1).
    { subst lo. rewrite Hf. unfold PyStr.adjust_index.
      change (-1 <? 0) with true. cbv iota. lia. }
    destruct (Z.eq_dec (r + 1) n) as [Hlast|Hmid].
    + right.
      replace (Z.to_nat lo) with (String.length content - 1)%nat
        by (unfold n, PyStr.len in *; lia).
      replace (Z.to_nat (hi - lo)) with 1%nat by lia.
      apply (rfind_from_last "}" content 0 (-1)); [lia | |].
      * fold (PyStr.rfind "}" content). fold r. fold n. lia.
      * intros Hnil. unfold n in Hr. rewrite Hnil in Hr.
        change (PyStr.len "") with 0 in Hr. lia.
    + left. replace (Z.to_nat (hi - lo)) with 0%nat by lia. apply substring_nothing.
Qed.

(** C3.  A text made of a JSON object that parses, between a prefix and a
    suffix free of braces, is cut from its first opening brace to its last
    closing brace, and the extractor returns the parsed object as it is:
    prefix and suffix are ignored. *)
Theorem extractor_round_trip name prefix body suffix (parsed : AnalysisResult) :
  Spec.brace_free prefix ->
  Spec.brace_free suffix ->
  json_loads ("{" +:+ body +:+ "}") = Some parsed ->
  brace_span (prefix +:+ ("{" +:+ body +:+ "}") +:+ suffix) = "{" +:+ body +:+ "}"
  /\ extract_analysis json_loads name
       (prefix +:+ ("{" +:+ body +:+ "}") +:+ suffix) = parsed.
Proof.
  intros [Hp _] [_ Hs] Hparse.
  pose proof (brace_span_object prefix body suffix Hp Hs) as Hspan.
  split; [exact Hspan|].
  unfold extract_analysis. rewrite Hspan, Hparse. reflexivity.
Qed.

(** C9.  Whenever the span fails to parse, the company name of the result
    is the name the caller passed, whatever names the text holds. *)
Theorem fallback_company_name name content :
  json_loads (brace_span content) = None ->
  company_name (extract_analysis json_loads name content) = Some name.
Proof. intros Hfail. unfold extract_analysis. rewrite Hfail. reflexivity. Qed.

(** [json.loads] raises on the empty text and on a lone closing brace. *)
Hypothesis loads_empty : json_loads "" = None.
Hypothesis loads_closing_brace : json_loads "}" = None.

Lemma no_pair_fails content :
  Spec.no_brace_pair content -> json_loads (brace_span content) = None.
Proof.
  intros Hno. destruct (brace_span_no_pair content Hno) as [->| ->]; assumption.
Qed.

(** C2.  A text without a pair of braces, or whose span fails to parse,
    gives the synthesized result: primary sectors ["Other"], no secondary
    sectors, the whole text as reasoning, confidence "Low".  This path
    raises nothing: [analyze_company] shows no error and returns the
    result. *)
Theorem extractor_fallback name content :
  Spec.no_brace_pair content \/ json_loads (brace_span content) = None ->
  extract_analysis json_loads name content
  = {| company_name := Some name;
       primary_sectors := Some ["Other"];
       secondary_sectors := Some [];
       reasoning := Some content;
       confidence := Some "Low";
       other_keys := 0 |}
  /\ forall (create : ChatCompletion) (description model : string),
       create model (request_messages name description) 500 30
       = Answered content ->
       analyze_company json_loads create name description model
       = ([], Some {| company_name := Some name;
                      primary_sectors := Some ["Other"];
                      secondary_sectors := Some [];
                      reasoning := Some content;
                      confidence := Some "Low";
                      other_keys := 0 |}).
Proof.
  intros Hfail.
  assert (Hnone : json_loads (brace_span content) = None)
    by (destruct Hfail as [Hno|Hp]; [apply no_pair_fails|]; assumption).
  assert (Hx : extract_analysis json_loads name content
               = fallback_analysis name content)
    by (unfold extract_analysis; rewrite Hnone; reflexivity).
  split; [exact Hx|].
  intros create description model Hans.
  unfold analyze_company. rewrite Hans, Hx. reflexivity.
Qed.

End Extractor.

(** The reference parser rejects the empty text and the lone brace, and
    reads the object of the round-trip example. *)
Example loads_analysis_runs :
  Json.loads_analysis "" = None
  /\ Json.loads_analysis "}" = None
  /\ Json.loads_analysis ("{" +:+ Samples.acme_body +:+ "}") = Some Samples.acme
  /\ Json.loads_analysis (brace_span Samples.broken_text) = None.
Proof. split; [|split; [|split]]; vm_compute; reflexivity. Qed.

Lemma extractor_round_trip_witness :
  Spec.brace_free "prefix "
  /\ Spec.brace_free " suffix"
  /\ Json.loads_analysis ("{" +:+ Samples.acme_body +:+ "}") = Some Samples.acme
  /\ extract_analysis Json.loads_analysis "Acme"
       ("prefix " +:+ ("{" +:+ Samples.acme_body +:+ "}") +:+ " suffix") = Samples.acme.
Proof.
  assert (Hp : Spec.brace_free "prefix ")
    by (split; cbn [PyStr.has_char]; intuition discriminate).
  assert (Hs : Spec.brace_free " suffix")
    by (split; cbn [PyStr.has_char]; intuition discriminate).
  assert (Hl : Json.loads_analysis ("{" +:+ Samples.acme_body +:+ "}") = Some Samples.acme)
    by (vm_compute; reflexivity).
  split; [exact Hp | split; [exact Hs | split; [exact Hl |]]].
  exact (proj2 (extractor_round_trip Json.loads_analysis "Acme" "prefix "
                  Samples.acme_body " suffix" Samples.acme Hp Hs Hl)).
Defined.

Lemma fallback_company_name_witness :
  Json.loads_analysis (brace_span Samples.broken_text) = None
  /\ company_name (extract_analysis Json.loads_analysis "Globex" Samples.broken_text)
     = Some "Globex".
Proof.
  assert (Hf : Json.loads_analysis (brace_span Samples.broken_text) = None)
    by (vm_compute; reflexivity).
  split; [exact Hf|].
  exact (fallback_company_name Json.loads_analysis "Globex" Samples.broken_text Hf).
Defined.

Lemma extractor_fallback_witness :
  Spec.no_brace_pair "no braces here"
  /\ extract_analysis Json.loads_analysis "Acme" "no braces here"
     = {| company_name := Some "Acme";
          primary_sectors := Some ["Other"];
          secondary_sectors := Some [];
          reasoning := Some "no braces here";
          confidence := Some "Low";
          other_keys := 0 |}.
Proof.
  assert (Hno : Spec.no_brace_pair "no braces here") by (left; vm_compute; reflexivity).
  split; [exact Hno|].
  exact (proj1 (extractor_fallback Json.loads_analysis eq_refl eq_refl
                  "Acme" "no braces here" (or_introl Hno))).
Defined.

(** The malformed example of the specification. *)
Example extractor_fallback_malformed :
  extract_analysis Json.loads_analysis "Acme" "{not valid json}"
  = fallback_analysis "Acme" "{not valid json}".
Proof. vm_compute. reflexivity. Qed.

(** ** The session history *)

Section History.

Variable json_loads : string -> option AnalysisResult.

Implicit Types (s : SessionState) (i : Inputs) (a : AnalysisResult)
  (history : list HistoryEntry) (n : option string).

Lemma in_history_iff a history :
  in_history a history = true <-> In (company_name a) (map entry_company_name history).
Proof.
  unfold in_history. rewrite existsb_exists, in_map_iff. split.
  - intros (h & Hin & Heq). apply bool_decide_eq_true_1 in Heq. eauto.
  - intros (h & Heq & Hin). exists h. split; [exact Hin|].
    apply bool_decide_eq_true_2. exact Heq.
Qed.

Lemma entries_named_once n history :
  List.NoDup (map entry_company_name history) ->
  In n (map entry_company_name history) ->
  Spec.entries_named n history = 1%nat.
Proof.
  unfold Spec.entries_named.
  induction history as [|h history IH]; intros Hnd Hin; [destruct Hin|].
  cbn [map] in Hnd, Hin. apply List.NoDup_cons_iff in Hnd as [Hfresh Hnd].
  cbn [List.filter]. destruct (decide (entry_company_name h = n)) as [Heq|Hne].
  - rewrite (bool_decide_eq_true_2 _ Heq). cbn [List.length]. f_equal.
    rewrite <- Heq in *. clear IH Hin Hnd.
    induction history as [|h' history IH]; [reflexivity|].
    cbn [map] in Hfresh. cbn [List.filter].
    rewrite bool_decide_eq_false_2 by (intros Heq'; apply Hfresh; left; exact Heq').
    apply IH. intros Hin. apply Hfresh. right. exact Hin.
  - rewrite (bool_decide_eq_false_2 _ Hne). apply IH; [exact Hnd|].
    destruct Hin as [Heq|Hin]; [contradiction | exact Hin].
Qed.

(** The first column never touches the history, and stores only a truthy
    analysis. *)
Lemma column1_history s i :
  analysis_history (fst (column1 json_loads s i)) = analysis_history s.
Proof.
  unfold column1. destruct (analyze_pressed i); [|reflexivity].
  destruct (PyStr.truthy (company_name_input i)); [|reflexivity].
  destruct (analyze_company _ _ _ _ _) as [shown [a|]]; [|reflexivity].
  destruct (analysis_truthy a); reflexivity.
Qed.

Lemma column1_last_analysis s i :
  last_analysis (fst (column1 json_loads s i)) = last_analysis s
  \/ exists a, last_analysis (fst (column1 json_loads s i)) = Some a
               /\ analysis_truthy a = true.
Proof.
  unfold column1. destruct (analyze_pressed i); [|now left].
  destruct (PyStr.truthy (company_name_input i)); [|now left].
  destruct (analyze_company _ _ _ _ _) as [shown [a|]]; [|now left].
  destruct (analysis_truthy a) eqn:Ha; [right; eauto | now left].
Qed.

Lemma init_history_entries s : entries (init_history s) = entries s.
Proof.
  unfold init_history, entries.
  destruct (analysis_history s) eqn:E; [rewrite E|]; reflexivity.
Qed.

Lemma init_history_last_analysis s : last_analysis (init_history s) = last_analysis s.
Proof. unfold init_history. destruct (analysis_history s); reflexivity. Qed.

Lemma add_to_history_last_analysis s :
  last_analysis (add_to_history s) = last_analysis s.
Proof.
  unfold add_to_history. destruct (last_analysis s) as [a|] eqn:Hl; [|exact Hl].
  destruct (_ && _); [reflexivity | exact Hl].
Qed.

(** The history after the append. *)
Lemma add_to_history_entries s :
  entries (add_to_history s)
  = match last_analysis s with
    | Some a =>
        if analysis_truthy a && negb (in_history a (entries s))
        then entries s ++ [history_entry a]
        else entries s
    | None => entries s
    end.
Proof.
  unfold add_to_history. destruct (last_analysis s) as [a|]; [|reflexivity].
  destruct (_ && _); reflexivity.
Qed.

(** The append keeps what is there. *)
Lemma add_to_history_grows s :
  exists added, entries (add_to_history s) = entries s ++ added.
Proof.
  rewrite add_to_history_entries. destruct (last_analysis s) as [a|].
  - destruct (_ && _).
    + exists [history_entry a]. reflexivity.
    + exists []. symmetry. apply app_nil_r.
  - exists []. symmetry. apply app_nil_r.
Qed.

(** The append keeps the names distinct and records a truthy analysis. *)
Lemma add_to_history_recorded s :
  List.NoDup (Spec.names s) ->
  (forall a, last_analysis s = Some a -> analysis_truthy a = true) ->
  Spec.recorded (add_to_history s).
Proof.
  intros Hnd Htruthy. unfold Spec.recorded, Spec.names in *.
  rewrite add_to_history_last_analysis, add_to_history_entries.
  destruct (last_analysis s) as [a|] eqn:Hl.
  - specialize (Htruthy a eq_refl). rewrite Htruthy. cbn [andb].
    destruct (in_history a (entries s)) eqn:Hin; cbn [negb].
    + split; [exact Hnd|]. intros a' Ha'. injection Ha' as <-.
      split; [exact Htruthy | apply in_history_iff; exact Hin].
    + assert (Hfresh : ~ In (company_name a) (map entry_company_name (entries s))).
      { intros H. apply in_history_iff in H. congruence. }
      rewrite map_app. cbn [map history_entry entry_company_name]. split.
      * apply List.NoDup_app; [exact Hnd | |].
        -- apply List.NoDup_cons; [intros [] | apply List.NoDup_nil].
        -- intros x Hx [<-|[]]. contradiction.
      * intros a' Ha'. injection Ha' as <-.
        split; [exact Htruthy|]. apply in_or_app. right. left. reflexivity.
  - split; [exact Hnd|]. intros a' Ha'. discriminate.
Qed.

(** One run of the script re-establishes [Spec.recorded]. *)
Lemma script_recorded s i :
  Spec.recorded s -> Spec.recorded (fst (script json_loads s i)).
Proof.
  intros [Hnd Hlast]. unfold Spec.names in *. unfold script.
  pose proof (column1_history s i) as Hh.
  pose proof (column1_last_analysis s i) as Hl.
  destruct (column1 json_loads s i) as [s1 shown1]. cbn [fst] in *.
  apply add_to_history_recorded.
  - unfold Spec.names. rewrite init_history_entries. unfold entries. rewrite Hh.
    exact Hnd.
  - intros a Ha. rewrite init_history_last_analysis in Ha.
    destruct Hl as [Hl|(a' & Hl & Ht)].
    + rewrite Hl in Ha. apply (Hlast a Ha).
    + rewrite Hl in Ha. injection Ha as <-. exact Ht.
Qed.

Lemma initial_recorded : Spec.recorded initial_session.
Proof. split; [apply List.NoDup_nil | intros a Ha; discriminate Ha]. Qed.

Lemma fold_script_recorded (runs : list Inputs) s :
  Spec.recorded s ->
  Spec.recorded (fold_left (fun s i => fst (script json_loads s i)) runs s).
Proof.
  revert s. induction runs as [|i runs IH]; intros s Hs; [exact Hs|].
  cbn [fold_left]. apply IH. apply script_recorded. exact Hs.
Qed.

Lemma session_recorded (runs : list Inputs) : Spec.recorded (session json_loads runs).
Proof. apply fold_script_recorded. apply initial_recorded. Qed.

(** A name in the history stays there. *)
Lemma script_keeps_names s i n :
  In n (Spec.names s) -> In n (Spec.names (fst (script json_loads s i))).
Proof.
  unfold Spec.names. intros Hin. unfold script.
  pose proof (column1_history s i) as Hh.
  destruct (column1 json_loads s i) as [s1 shown1]. cbn [fst] in *.
  destruct (add_to_history_grows (init_history s1)) as [added ->].
  rewrite init_history_entries, map_app. apply in_or_app. left.
  unfold entries. rewrite Hh. exact Hin.
Qed.

Lemma fold_script_keeps_names (runs : list Inputs) s n :
  In n (Spec.names s) ->
  In n (Spec.names (fold_left (fun s i => fst (script json_loads s i)) runs s)).
Proof.
  revert s. induction runs as [|i runs IH]; intros s Hs; [exact Hs|].
  cbn [fold_left]. apply IH. apply script_keeps_names. exact Hs.
Qed.

Lemma session_app (earlier later : list Inputs) :
  session json_loads (earlier ++ later)
  = fold_left (fun s i => fst (script json_loads s i)) later (session json_loads earlier).
Proof. unfold session. apply fold_left_app. Qed.

End History.


(** C5.  A history of more than ten entries is displayed as exactly its ten
    last entries, which are the ten appended most recently, the newest
    first. *)
Theorem history_display_last_ten (history : list HistoryEntry) :
  (10 < List.length history)%nat ->
  exists older recent : list HistoryEntry,
    history = older ++ recent
    /\ List.length recent = 10%nat
    /\ displayed_history history = List.rev recent
    /\ show_history history
       = st_header "📈 Analysis History" :: map show_item (List.rev recent).
Proof.
  intros Hlen.
  exists (firstn (List.length history - 10) history),
         (skipn (List.length history - 10) history).
  assert (Hslice : PyStr.list_slice_from history (-10)
                   = skipn (List.length history - 10) history).
  { unfold PyStr.list_slice_from, PyStr.adjust_index.
    change (-10 <? 0) with true. cbv iota. f_equal. lia. }
  split; [symmetry; apply firstn_skipn|].
  split; [rewrite List.length_skipn; lia|].
  unfold show_history, displayed_history. rewrite Hslice.
  split; [reflexivity|].
  destruct history as [|h history]; [cbn in Hlen; lia | reflexivity].
Qed.

Lemma history_display_last_ten_witness :
  (10 < List.length Samples.twelve_entries)%nat
  /\ exists older recent : list HistoryEntry,
       Samples.twelve_entries = older ++ recent
       /\ List.length recent = 10%nat
       /\ displayed_history Samples.twelve_entries = List.rev recent
       /\ show_history Samples.twelve_entries
          = st_header "📈 Analysis History" :: map show_item (List.rev recent).
Proof.
  assert (Hlen : (10 < List.length Samples.twelve_entries)%nat) by (cbn; lia).
  split; [exact Hlen|].
  exact (history_display_last_ten Samples.twelve_entries Hlen).
Defined.

(** Of twelve entries the two oldest are not displayed. *)
Example history_display_twelve :
  map entry_company_name (displayed_history Samples.twelve_entries)
  = map Some ["l"; "k"; "j"; "i"; "h"; "g"; "f"; "e"; "d"; "c"].
Proof. vm_compute. reflexivity. Qed.

(** C4 as stated fails: "Acme" is submitted twice and analysed twice, the
    two answers name the company "Acme Corp" and "Acme Inc", and the history
    ends with two entries, none of them for the submitted name. *)
Lemma same_name_twice_not_one_entry :
  Forall (Spec.submits "Acme")
    [ Samples.submit "Acme" (Samples.answering Samples.acme_corp_text);
      Samples.submit "Acme" (Samples.answering Samples.acme_inc_text) ]
  /\ map entry_company_name
       (entries
          (session Json.loads_analysis
             [ Samples.submit "Acme" (Samples.answering Samples.acme_corp_text);
               Samples.submit "Acme" (Samples.answering Samples.acme_inc_text) ]))
     = [Some "Acme Corp"; Some "Acme Inc"]
  /\ Spec.entries_named (Some "Acme")
       (entries
          (session Json.loads_analysis
             [ Samples.submit "Acme" (Samples.answering Samples.acme_corp_text);
               Samples.submit "Acme" (Samples.answering Samples.acme_inc_text) ]))
     <> 1%nat.
Proof.
  split; [repeat constructor|].
  split; [vm_compute; reflexivity|].
  vm_compute. discriminate.
Qed.



(** The end-to-end scenario of the specification. *)
Example khan_academy_scenario :
  entries
    (session Json.loads_analysis
       [ {| company_name_input := "Khan Academy";
            company_description_input := "free online courses";
            selected_model := "openai/gpt-4o";
            analyze_pressed := true;
            service := Samples.answering Samples.khan_text |} ])
  = [ {| entry_company_name := Some "Khan Academy"; sectors := ["K-12"];
         assigned_to := "Mitch"; entry_confidence := "High" |} ].
Proof. vm_compute. reflexivity. Qed.


(** * Further properties *)

(** ** The resolver *)

Section ResolverFacts.

Implicit Types (sectors : list string) (label : string).

Lemma contains_true_iff label sectors :
  Spec.contains label sectors = true <-> In label sectors.
Proof.
  rewrite contains_elem_of, bool_decide_eq_true. apply list_elem_of_In.
Qed.

Lemma contains_false_iff label sectors :
  Spec.contains label sectors = false <-> ~ In label sectors.
Proof.
  rewrite <- contains_true_iff.
  destruct (Spec.contains label sectors); split; intros H; congruence.
Qed.

Lemma contains_same_elements label sectors sectors' :
  (forall x, In x sectors <-> In x sectors') ->
  Spec.contains label sectors = Spec.contains label sectors'.
Proof.
  intros Hsame. destruct (Spec.contains label sectors') eqn:E.
  - apply contains_true_iff. apply Hsame. apply contains_true_iff. exact E.
  - apply contains_false_iff. intros Hin. apply contains_false_iff in E.
    apply E. apply Hsame. exact Hin.
Qed.

Lemma is_empty_same_elements sectors sectors' :
  (forall x, In x sectors <-> In x sectors') ->
  Spec.is_empty sectors = Spec.is_empty sectors'.
Proof.
  intros Hsame. destruct sectors as [|x xs], sectors' as [|y ys]; try reflexivity.
  - destruct (proj2 (Hsame y)). left. reflexivity.
  - destruct (proj1 (Hsame x)). left. reflexivity.
Qed.

Lemma six_rules_same_elements sectors sectors' :
  (forall x, In x sectors <-> In x sectors') ->
  Spec.six_rules sectors = Spec.six_rules sectors'.
Proof.
  intros Hsame. unfold Spec.six_rules.
  rewrite (is_empty_same_elements _ _ Hsame).
  rewrite (contains_same_elements "K-12" _ _ Hsame),
    (contains_same_elements "Higher Education" _ _ Hsame),
    (contains_same_elements "Workforce Learning" _ _ Hsame),
    (contains_same_elements "Corporate Development" _ _ Hsame).
  reflexivity.
Qed.

(** The four membership tests, as booleans that reflect [In]. *)
Lemma six_rules_cases sectors :
  exists k h w c : bool,
    (k = true <-> In "K-12" sectors)
    /\ (h = true <-> In "Higher Education" sectors)
    /\ (w = true <-> In "Workforce Learning" sectors)
    /\ (c = true <-> In "Corporate Development" sectors)
    /\ get_team_assignment sectors
       = if k && h then "Mitch"
         else if w && c then "Sam"
         else if k || h then "Mitch"
         else if w || c then "Sam"
         else "To be assigned".
Proof.
  exists (Spec.contains "K-12" sectors), (Spec.contains "Higher Education" sectors),
    (Spec.contains "Workforce Learning" sectors),
    (Spec.contains "Corporate Development" sectors).
  repeat (split; [apply contains_true_iff|]).
  rewrite get_team_assignment_unfold. unfold Spec.six_rules.
  destruct sectors; reflexivity.
Qed.

End ResolverFacts.

(** X1.  The resolver sees its input as a set: two lists with the same
    elements, whatever their order and repetitions, get the same answer. *)
Theorem resolver_same_elements (sectors sectors' : list string) :
  (forall x, In x sectors <-> In x sectors') ->
  get_team_assignment sectors = get_team_assignment sectors'.
Proof.
  intros Hsame. rewrite !get_team_assignment_unfold.
  apply six_rules_same_elements. exact Hsame.
Qed.

Lemma resolver_same_elements_witness :
  get_team_assignment ["K-12"; "Other"; "K-12"; "Workforce Learning"]
  = get_team_assignment ["Workforce Learning"; "K-12"; "Other"].
Proof.
  apply resolver_same_elements. intros x. cbn [In]. tauto.
Defined.

(** X2.  The resolver answers "To be assigned" exactly when none of the four
    labels "K-12", "Higher Education", "Workforce Learning", "Corporate
    Development" is an element of its input. *)
Theorem resolver_unassigned_iff (sectors : list string) :
  get_team_assignment sectors = "To be assigned"
  <-> ~ In "K-12" sectors /\ ~ In "Higher Education" sectors
      /\ ~ In "Workforce Learning" sectors /\ ~ In "Corporate Development" sectors.
Proof.
  destruct (six_rules_cases sectors) as (k & h & w & c & Hk & Hh & Hw & Hc & ->).
  rewrite <- Hk, <- Hh, <- Hw, <- Hc.
  destruct k, h, w, c; cbn; split; intros H;
    try discriminate H; try reflexivity;
    try (repeat split; discriminate);
    try (destruct H as (H1 & H2 & H3 & H4); congruence).
Qed.

Lemma resolver_unassigned_iff_witness :
  get_team_assignment ["Other"; "EdTech"] = "To be assigned"
  /\ In "Workforce Learning" ["Other"; "Workforce Learning"]
  /\ get_team_assignment ["Other"; "Workforce Learning"] <> "To be assigned".
Proof.
  split; [|split].
  - apply (proj2 (resolver_unassigned_iff ["Other"; "EdTech"])).
    cbn [In]. repeat split; intros H; repeat (destruct H as [H|H]; [discriminate H|]);
      exact H.
  - right. left. reflexivity.
  - intros H. apply (proj1 (resolver_unassigned_iff _)) in H.
    destruct H as (_ & _ & Hw & _). apply Hw. right. left. reflexivity.
Defined.

(** X3.  The resolver answers "Mitch" exactly when both school labels are
    present, or one of them is present and the two workforce labels are not
    both present. *)
Theorem resolver_mitch_iff (sectors : list string) :
  get_team_assignment sectors = "Mitch"
  <-> (In "K-12" sectors /\ In "Higher Education" sectors)
      \/ ((In "K-12" sectors \/ In "Higher Education" sectors)
          /\ ~ (In "Workforce Learning" sectors /\ In "Corporate Development" sectors)).
Proof.
  destruct (six_rules_cases sectors) as (k & h & w & c & Hk & Hh & Hw & Hc & ->).
  rewrite <- Hk, <- Hh, <- Hw, <- Hc.
  destruct k, h, w, c; cbn; split; intros H; try discriminate H; try reflexivity;
    try (left; split; reflexivity);
    try (right; split; [first [left; reflexivity | right; reflexivity]
                       | intros [H1 H2]; congruence]);
    try (destruct H as [[H1 H2]|[[H1|H1] H2]]; try discriminate;
         exfalso; apply H2; split; reflexivity).
Qed.

Lemma resolver_mitch_iff_witness :
  get_team_assignment ["Higher Education"; "Corporate Development"] = "Mitch".
Proof.
  apply (proj2 (resolver_mitch_iff _)). right. split.
  - right. left. reflexivity.
  - intros [Hw _]. cbn [In] in Hw.
    repeat (destruct Hw as [Hw|Hw]; [discriminate Hw|]). exact Hw.
Defined.

(** X4.  The resolver answers "Sam" exactly when the two school labels are
    not both present and either both workforce labels are present, or one of
    them is and no school label is. *)
Theorem resolver_sam_iff (sectors : list string) :
  get_team_assignment sectors = "Sam"
  <-> ~ (In "K-12" sectors /\ In "Higher Education" sectors)
      /\ ((In "Workforce Learning" sectors /\ In "Corporate Development" sectors)
          \/ (~ In "K-12" sectors /\ ~ In "Higher Education" sectors
              /\ (In "Workforce Learning" sectors
                  \/ In "Corporate Development" sectors))).
Proof.
  destruct (six_rules_cases sectors) as (k & h & w & c & Hk & Hh & Hw & Hc & ->).
  rewrite <- Hk, <- Hh, <- Hw, <- Hc.
  destruct k, h, w, c; cbn; split; intros H; try discriminate H; try reflexivity;
    try (split; [intros [H1 H2]; congruence|];
         first [ left; split; reflexivity
               | right; split; [congruence|]; split; [congruence|];
                 first [left; reflexivity | right; reflexivity] ]);
    try (destruct H as [H0 [[H1 H2]|(H1 & H2 & [H3|H3])]]; try discriminate;
         try congruence; exfalso; apply H0; split; reflexivity).
Qed.

Lemma resolver_sam_iff_witness :
  get_team_assignment ["K-12"; "Corporate Development"; "Workforce Learning"] = "Sam".
Proof.
  apply (proj2 (resolver_sam_iff _)). split.
  - intros [_ Hh]. cbn [In] in Hh.
    repeat (destruct Hh as [Hh|Hh]; [discriminate Hh|]). exact Hh.
  - left. split; cbn [In]; tauto.
Defined.

(** X5.  The assignment does not tell primary from secondary sectors: with
    the two fields of an analysis exchanged the resolver answers the same on
    their concatenation. *)
Theorem assignment_ignores_sector_rank (a : AnalysisResult) :
  get_team_assignment (all_sectors (Run.swap_sectors a))
  = get_team_assignment (all_sectors a).
Proof.
  rewrite !get_team_assignment_unfold. apply six_rules_same_elements.
  intros x. unfold all_sectors, Run.swap_sectors. cbn [primary_sectors secondary_sectors].
  rewrite !in_app_iff. tauto.
Qed.

(** X6.  The table shown in the second column agrees with the resolver on
    single labels: for each row whose key is one of the five sector
    categories, the resolver on that label alone answers the row's member. *)
Theorem table_agrees_on_single_labels (label member : string) :
  In (label, member) TEAM_ASSIGNMENTS ->
  In label Run.sector_categories ->
  get_team_assignment [label] = member.
Proof.
  intros Hrow Hcat. cbn [TEAM_ASSIGNMENTS In] in Hrow.
  repeat (destruct Hrow as [Hrow|Hrow];
          [injection Hrow as <- <-;
           first [ vm_compute; reflexivity
                 | exfalso; cbn [Run.sector_categories In] in Hcat;
                   repeat (destruct Hcat as [Hcat|Hcat]; [discriminate Hcat|]);
                   exact Hcat ]|]).
  destruct Hrow.
Qed.

Lemma table_agrees_on_single_labels_witness :
  get_team_assignment ["Corporate Development"] = "Sam".
Proof.
  apply table_agrees_on_single_labels.
  - cbn [TEAM_ASSIGNMENTS In]. do 4 right. left. reflexivity.
  - cbn [Run.sector_categories In]. do 3 right. left. reflexivity.
Defined.

(** ** The span handed to the parser *)

Section SpanFacts.

Implicit Types (s p q t : string) (c a b : ascii) (i j best : Z).

Lemma app_assoc_string p q t : (p +:+ q) +:+ t = p +:+ q +:+ t.
Proof.
  induction p as [|a p IH]; [reflexivity|]. rewrite !app_cons, IH. reflexivity.
Qed.

Lemma substring_prefix (m : nat) s : exists q, s = String.substring 0 m s +:+ q.
Proof.
  revert m. induction s as [|a s IH]; intros [|m]; cbn [String.substring].
  - exists "". reflexivity.
  - exists "". reflexivity.
  - exists (String a s). reflexivity.
  - destruct (IH m) as [q Hq]. exists q. rewrite app_cons, <- Hq. reflexivity.
Qed.

Lemma substring_contained (n m : nat) s :
  exists p q, s = p +:+ String.substring n m s +:+ q.
Proof.
  revert n. induction s as [|a s IH]; intros n.
  - exists "", "". destruct n, m; reflexivity.
  - destruct n as [|n].
    + destruct (substring_prefix m (String a s)) as [q Hq]. exists "", q. exact Hq.
    + destruct (IH n) as (p & q & Hpq). exists (String a p), q.
      cbn [String.substring]. rewrite app_cons, <- Hpq. reflexivity.
Qed.

(** Where [find] answers an index, the text splits there and the needle
    does not occur before. *)
Lemma find_from_split c s i j :
  PyStr.find_from c s i = j -> j <> -1 -> 0 <= i ->
  exists p t, s = p +:+ String c t /\ ~ PyStr.has_char c p /\ j = i + PyStr.len p.
Proof.
  revert i. induction s as [|a s IH]; intros i Hf Hj Hi; cbn [PyStr.find_from] in Hf.
  - congruence.
  - destruct (Ascii.eqb_spec a c) as [->|Hac].
    + exists "", s. split; [reflexivity|]. split; [intros []|].
      change (PyStr.len "") with 0. lia.
    + destruct (IH (i + 1) Hf Hj ltac:(lia)) as (p & t & -> & Hp & Hjp).
      exists (String a p), t. split; [reflexivity|]. split.
      * cbn [PyStr.has_char]. tauto.
      * rewrite len_cons. lia.
Qed.

(** When [rfind] answers what it started with, the needle does not occur. *)
Lemma rfind_from_nothing c s i best :
  best < i -> PyStr.rfind_from c s i best = best -> ~ PyStr.has_char c s.
Proof.
  revert i best. induction s as [|a s IH]; intros i best Hb Hr; [intros []|].
  cbn [PyStr.rfind_from] in Hr. cbn [PyStr.has_char].
  destruct (rfind_from_range c s (i + 1) (if Ascii.eqb a c then i else best)) as [Hs|Hs];
    [|lia].
  destruct (Ascii.eqb_spec a c) as [->|Hac]; [lia|].
  rewrite Hr in Hs. intros [Heq|Hin]; [contradiction|].
  apply (IH (i + 1) best ltac:(lia) Hr). exact Hin.
Qed.

(** Where [rfind] answers an index, the text splits there and the needle
    does not occur after. *)
Lemma rfind_from_split c s i best j :
  best < i -> PyStr.rfind_from c s i best = j -> j <> best ->
  exists p t, s = p +:+ String c t /\ ~ PyStr.has_char c t /\ j = i + PyStr.len p.
Proof.
  revert i best. induction s as [|a s IH]; intros i best Hb Hr Hj;
    cbn [PyStr.rfind_from] in Hr; [congruence|].
  destruct (Z.eq_dec j (if Ascii.eqb a c then i else best)) as [Hsame|Hdiff].
  - destruct (Ascii.eqb_spec a c) as [->|Hac]; [|congruence].
    exists "", s. split; [reflexivity|]. split.
    + apply (rfind_from_nothing c s (i + 1) i); [lia | congruence].
    + change (PyStr.len "") with 0. lia.
  - assert (Hb' : (if Ascii.eqb a c then i else best) < i + 1)
      by (destruct (Ascii.eqb a c); lia).
    destruct (IH (i + 1) _ Hb' Hr Hdiff) as (p & t & -> & Ht & Hjp).
    exists (String a p), t. split; [reflexivity|]. split; [exact Ht|].
    rewrite len_cons. lia.
Qed.

Lemma app_same_length p1 p2 s1 s2 :
  p1 +:+ s1 = p2 +:+ s2 -> PyStr.len p1 = PyStr.len p2 -> p1 = p2 /\ s1 = s2.
Proof.
  revert p2. induction p1 as [|a p1 IH]; intros [|b p2] Heq Hlen;
    rewrite ?len_cons in Hlen; change (PyStr.len "") with 0 in Hlen.
  - split; [reflexivity | exact Heq].
  - pose proof (len_nonneg p2). lia.
  - pose proof (len_nonneg p1). lia.
  - rewrite !app_cons in Heq. injection Heq as -> Heq.
    destruct (IH p2 Heq ltac:(lia)) as [-> ->]. split; reflexivity.
Qed.

Lemma app_split_later p1 p2 a b t1 t2 :
  p1 +:+ String a t1 = p2 +:+ String b t2 -> PyStr.len p1 < PyStr.len p2 ->
  exists mid, t1 = mid +:+ String b t2 /\ p2 = p1 +:+ String a mid.
Proof.
  revert p2. induction p1 as [|x p1 IH]; intros [|y p2] Heq Hlen;
    rewrite ?len_cons in Hlen; change (PyStr.len "") with 0 in Hlen.
  - lia.
  - rewrite app_empty, app_cons in Heq. injection Heq as -> ->.
    exists p2. split; reflexivity.
  - pose proof (len_nonneg p1). lia.
  - rewrite !app_cons in Heq. injection Heq as -> Heq.
    destruct (IH p2 Heq ltac:(lia)) as (mid & -> & ->).
    exists mid. split; reflexivity.
Qed.

(** The span: nothing, a lone closing brace, or the text from the first
    opening brace to the last closing brace. *)
Lemma brace_span_cases (content : string) :
  brace_span content = ""
  \/ brace_span content = "}"
  \/ exists prefix inner suffix : string,
       content = prefix +:+ ("{" +:+ inner +:+ "}") +:+ suffix
       /\ ~ PyStr.has_char "{" prefix
       /\ ~ PyStr.has_char "}" suffix
       /\ brace_span content = "{" +:+ inner +:+ "}".
Proof.
  destruct (Z.eq_dec (PyStr.find "{" content) (-1)) as [Hf|Hf].
  { destruct (brace_span_no_pair content (or_introl Hf)); auto. }
  destruct (Z.eq_dec (PyStr.rfind "}" content) (-1)) as [Hr|Hr].
  { destruct (brace_span_no_pair content (or_intror Hr)); auto. }
  destruct (find_from_split "{" content 0 _ eq_refl Hf ltac:(lia))
    as (p1 & t1 & H1 & Hp1 & Hf1).
  destruct (rfind_from_split "}" content 0 (-1) _ ltac:(lia) eq_refl Hr)
    as (p2 & t2 & H2 & Ht2 & Hr2).
  fold (PyStr.find "{" content) in Hf1. fold (PyStr.rfind "}" content) in Hr2.
  destruct (Z.lt_trichotomy (PyStr.len p1) (PyStr.len p2)) as [Hlt|[Heq|Hgt]].
  - right. right.
    destruct (app_split_later p1 p2 "{" "}" t1 t2 ltac:(congruence) Hlt)
      as (mid & Ht1 & Hp2).
    exists p1, mid, t2.
    assert (Hc : content = p1 +:+ ("{" +:+ mid +:+ "}") +:+ t2).
    { rewrite H1, Ht1. rewrite (app_assoc_string ("{" +:+ mid) "}" t2
                                  : ("{" +:+ mid +:+ "}") +:+ t2 = _).
      reflexivity. }
    split; [exact Hc|]. split; [exact Hp1|]. split; [exact Ht2|].
    rewrite Hc at 1. apply brace_span_object; assumption.
  - exfalso. destruct (app_same_length p1 p2 (String "{" t1) (String "}" t2)
                         ltac:(congruence) Heq) as [_ Habs].
    discriminate Habs.
  - left. unfold brace_span, PyStr.slice. cbv zeta.
    pose proof (len_nonneg content). pose proof (len_nonneg p1).
    pose proof (len_nonneg p2). pose proof (len_nonneg t1).
    assert (Hlen : PyStr.len content = PyStr.len p1 + (PyStr.len t1 + 1))
      by (rewrite H1 at 1; rewrite len_app, len_cons; reflexivity).
    rewrite !adjust_index_inside by lia.
    replace (Z.to_nat (PyStr.rfind "}" content + 1 - PyStr.find "{" content))
      with 0%nat by lia.
    apply substring_nothing.
Qed.

End SpanFacts.

(** X7.  What the parser is handed is the empty text, a lone closing brace,
    or a text that opens with a brace and closes with one: in the last case
    it is all of the answer from its first opening brace to its last closing
    brace, whatever lies between. *)
Theorem brace_span_shape (content : string) :
  brace_span content = ""
  \/ brace_span content = "}"
  \/ exists prefix inner suffix : string,
       content = prefix +:+ ("{" +:+ inner +:+ "}") +:+ suffix
       /\ ~ PyStr.has_char "{" prefix
       /\ ~ PyStr.has_char "}" suffix
       /\ brace_span content = "{" +:+ inner +:+ "}".
Proof. apply brace_span_cases. Qed.

(** X8.  The span is a piece of the answer: the parser never sees a
    character the model did not send. *)
Theorem brace_span_within_content (content : string) :
  PyStr.contains (brace_span content) content.
Proof.
  unfold PyStr.contains, brace_span, PyStr.slice. cbv zeta. apply substring_contained.
Qed.

(** X9.  Cutting is stable: the span of a span is that span. *)
Theorem brace_span_idempotent (content : string) :
  brace_span (brace_span content) = brace_span content.
Proof.
  destruct (brace_span_cases content)
    as [-> | [-> | (prefix & inner & suffix & _ & _ & _ & ->)]].
  - reflexivity.
  - vm_compute. reflexivity.
  - pose proof (brace_span_object "" inner "" ltac:(intros []) ltac:(intros [])) as H.
    rewrite app_empty, app_empty_r in H. exact H.
Qed.

(** ** Runs of the script *)

(** The display is the reverse of the history cut to ten. *)
Lemma displayed_history_firstn (history : list HistoryEntry) :
  displayed_history history = firstn 10 (List.rev history).
Proof.
  unfold displayed_history, PyStr.list_slice_from, PyStr.adjust_index.
  change (-10 <? 0) with true. cbv iota.
  rewrite List.firstn_rev. do 2 f_equal. lia.
Qed.

(** No part of the page below the form is an error box. *)
Lemma show_results_no_error (a : AnalysisResult) (body : string) : ~ In (st_error body) (show_results a).
Proof.
  unfold show_results. rewrite !in_app_iff. cbn [In].
  destruct (primary_sectors a) as [[|p ps]|], (secondary_sectors a) as [[|q qs]|];
    cbn [In]; intuition discriminate.
Qed.

Lemma column2_no_error (body : string) : ~ In (st_error body) column2.
Proof.
  unfold column2. rewrite in_app_iff, in_map_iff. cbn [In].
  intros [[H|[H|[]]]|([k m] & H & _)]; discriminate H.
Qed.

Lemma show_history_no_error (history : list HistoryEntry) (body : string) : ~ In (st_error body) (show_history history).
Proof.
  unfold show_history. destruct history as [|h history]; [intros []|].
  cbn [In]. rewrite in_map_iff. intros [H|(x & H & _)]; discriminate H.
Qed.

Section RunFacts.

Variable json_loads : string -> option AnalysisResult.

Implicit Types (s : SessionState) (i : Inputs) (a : AnalysisResult)
  (history : list HistoryEntry).

(** The script in terms of its first column. *)
Lemma script_unfold s i :
  script json_loads s i
  = (add_to_history (init_history (fst (column1 json_loads s i))),
     page_intro ++ snd (column1 json_loads s i) ++ column2
     ++ show_history
          (entries (add_to_history (init_history (fst (column1 json_loads s i)))))).
Proof. unfold script. destruct (column1 json_loads s i). reflexivity. Qed.

(** A run that does not ask: no button, or no name. *)
Lemma column1_idle s i :
  Run.requests i = false ->
  column1 json_loads s i
  = (s, if analyze_pressed i then [st_warning "Please enter a company name"] else []).
Proof.
  unfold Run.requests, column1. destruct (analyze_pressed i); [|reflexivity].
  cbn [andb]. intros ->. reflexivity.
Qed.

(** A run whose call is answered. *)
Lemma column1_answered s i content :
  Run.requests i = true ->
  Run.outcome i = Answered content ->
  column1 json_loads s i
  = if analysis_truthy (extract_analysis json_loads (company_name_input i) content)
    then ({| last_analysis :=
               Some (extract_analysis json_loads (company_name_input i) content);
             analysis_history := analysis_history s |},
          show_results (extract_analysis json_loads (company_name_input i) content))
    else (s, []).
Proof.
  unfold Run.requests, Run.outcome, column1, analyze_company.
  intros Hreq Hans. apply andb_prop in Hreq as [-> ->]. rewrite Hans.
  destruct (analysis_truthy _); reflexivity.
Qed.

(** A run whose call raises. *)
Lemma column1_raised s i cause :
  Run.requests i = true ->
  Run.outcome i = Raised cause ->
  column1 json_loads s i = (s, [st_error ("Error analyzing company: " +:+ cause)]).
Proof.
  unfold Run.requests, Run.outcome, column1, analyze_company.
  intros Hreq Hr. apply andb_prop in Hreq as [-> ->]. rewrite Hr. reflexivity.
Qed.


(** When the first column stores a truthy analysis, the run appends its
    entry unless the name is known. *)
Lemma script_stored s i a :
  fst (column1 json_loads s i)
  = {| last_analysis := Some a; analysis_history := analysis_history s |} ->
  analysis_truthy a = true ->
  last_analysis (fst (script json_loads s i)) = Some a
  /\ entries (fst (script json_loads s i))
     = if in_history a (entries s) then entries s
       else entries s ++ [history_entry a].
Proof.
  intros Hcol Ha. rewrite script_unfold, Hcol. cbn [fst].
  rewrite add_to_history_last_analysis, init_history_last_analysis.
  split; [reflexivity|].
  rewrite add_to_history_entries, init_history_last_analysis, init_history_entries.
  cbn [last_analysis]. rewrite Ha. cbn [andb].
  change (entries {| last_analysis := Some a; analysis_history := analysis_history s |})
    with (entries s).
  destruct (in_history a (entries s)); reflexivity.
Qed.

(** A run keeps the history or appends one entry built from an analysis. *)
Lemma script_entries s i :
  entries (fst (script json_loads s i)) = entries s
  \/ exists a, entries (fst (script json_loads s i)) = entries s ++ [history_entry a].
Proof.
  rewrite script_unfold. cbn [fst].
  rewrite add_to_history_entries, init_history_last_analysis, init_history_entries.
  assert (He : entries (fst (column1 json_loads s i)) = entries s)
    by (unfold entries; rewrite column1_history; reflexivity).
  rewrite He. destruct (last_analysis _) as [a|]; [|now left].
  destruct (_ && _); [right; exists a; reflexivity | now left].
Qed.

(** The invariant of a fold of runs from any state. *)
Lemma fold_script_entries_consistent (runs : list Inputs) s :
  Forall Run.consistent (entries s) ->
  Forall Run.consistent
    (entries (fold_left (fun s i => fst (script json_loads s i)) runs s)).
Proof.
  revert s. induction runs as [|i runs IH]; intros s Hs; [exact Hs|].
  cbn [fold_left]. apply IH.
  destruct (script_entries s i) as [->|[a ->]]; [exact Hs|].
  apply Forall_app. split; [exact Hs|].
  constructor; [reflexivity | constructor].
Qed.

Lemma fold_script_entries_prefix (runs : list Inputs) s :
  exists added,
    entries (fold_left (fun s i => fst (script json_loads s i)) runs s)
    = entries s ++ added.
Proof.
  revert s. induction runs as [|i runs IH]; intros s.
  - exists []. symmetry. apply app_nil_r.
  - cbn [fold_left]. destruct (IH (fst (script json_loads s i))) as [added ->].
    destruct (script_entries s i) as [->|[a ->]].
    + exists added. reflexivity.
    + exists ([history_entry a] ++ added). rewrite app_assoc. reflexivity.
Qed.



End RunFacts.

Section RunProperties.

Variable json_loads : string -> option AnalysisResult.




(** X13.  A truthy analysis of a name the history does not hold is stored,
    its entry (name, primary then secondary sectors, the resolver's answer on
    them, confidence or "Medium") is appended last, the history display
    opens with it, and the assignment shown with the results is the one
    recorded. *)
Theorem new_name_appended_and_shown_first (runs : list Inputs) (i : Inputs)
    (content : string) :
  Run.requests i = true ->
  Run.outcome i = Answered content ->
  analysis_truthy (extract_analysis json_loads (company_name_input i) content) = true ->
  in_history (extract_analysis json_loads (company_name_input i) content)
    (entries (session json_loads runs)) = false ->
  last_analysis (fst (script json_loads (session json_loads runs) i))
  = Some (extract_analysis json_loads (company_name_input i) content)
  /\ entries (fst (script json_loads (session json_loads runs) i))
     = entries (session json_loads runs)
       ++ [history_entry (extract_analysis json_loads (company_name_input i) content)]
  /\ hd_error (displayed_history
                 (entries (fst (script json_loads (session json_loads runs) i))))
     = Some (history_entry (extract_analysis json_loads (company_name_input i) content))
  /\ In (st_write
           ["**Assigned to:** "
            +:+ assigned_to
                  (history_entry
                     (extract_analysis json_loads (company_name_input i) content))])
       (snd (script json_loads (session json_loads runs) i)).
Proof.
  intros Hreq Hans Htruthy Hnew.
  set (a := extract_analysis json_loads (company_name_input i) content) in *.
  set (s := session json_loads runs) in *.
  pose proof (column1_answered json_loads s i content Hreq Hans) as Hcol.
  fold a in Hcol. rewrite Htruthy in Hcol.
  destruct (script_stored json_loads s i a) as [Hl He]; [rewrite Hcol; reflexivity
                                                        | exact Htruthy |].
  rewrite Hnew in He.
  split; [exact Hl|]. split; [exact He|]. split.
  - rewrite He, displayed_history_firstn, rev_app_distr. reflexivity.
  - rewrite script_unfold, Hcol. cbn [snd].
    apply in_or_app. right. apply in_or_app. left.
    unfold show_results. rewrite !in_app_iff. right. right. right.
    right. left. reflexivity.
Qed.

(** X14.  The first analysis of a name wins: a later truthy analysis of a
    name the history holds replaces the stored analysis but leaves the
    history, and so the sectors and the assignment recorded under that name,
    untouched. *)
Theorem known_name_keeps_history (runs : list Inputs) (i : Inputs) (content : string) :
  Run.requests i = true ->
  Run.outcome i = Answered content ->
  analysis_truthy (extract_analysis json_loads (company_name_input i) content) = true ->
  in_history (extract_analysis json_loads (company_name_input i) content)
    (entries (session json_loads runs)) = true ->
  last_analysis (fst (script json_loads (session json_loads runs) i))
  = Some (extract_analysis json_loads (company_name_input i) content)
  /\ entries (fst (script json_loads (session json_loads runs) i))
     = entries (session json_loads runs).
Proof.
  intros Hreq Hans Htruthy Hknown.
  set (a := extract_analysis json_loads (company_name_input i) content) in *.
  set (s := session json_loads runs) in *.
  pose proof (column1_answered json_loads s i content Hreq Hans) as Hcol.
  fold a in Hcol. rewrite Htruthy in Hcol.
  destruct (script_stored json_loads s i a) as [Hl He]; [rewrite Hcol; reflexivity
                                                        | exact Htruthy |].
  rewrite Hknown in He. split; assumption.
Qed.

(** X15.  An answer that does not parse is no error: the run reports
    success, stores the fallback, and a submitted name the history does not
    hold gets the entry with sectors ["Other"], assignment "To be assigned"
    and confidence "Low"; in every case the submitted name then has exactly
    one entry. *)
Theorem unparsed_answer_recorded (runs : list Inputs) (i : Inputs) (content : string) :
  Run.requests i = true ->
  Run.outcome i = Answered content ->
  json_loads (brace_span content) = None ->
  last_analysis (fst (script json_loads (session json_loads runs) i))
  = Some (fallback_analysis (company_name_input i) content)
  /\ In (st_success "Analysis complete!")
       (snd (script json_loads (session json_loads runs) i))
  /\ (~ In (Some (company_name_input i)) (Spec.names (session json_loads runs)) ->
      entries (fst (script json_loads (session json_loads runs) i))
      = entries (session json_loads runs) ++ [Run.fallback_entry (company_name_input i)])
  /\ Spec.entries_named (Some (company_name_input i))
       (entries (fst (script json_loads (session json_loads runs) i))) = 1%nat.
Proof.
  intros Hreq Hans Hfail.
  set (s := session json_loads runs) in *.
  pose proof (column1_answered json_loads s i content Hreq Hans) as Hcol.
  unfold extract_analysis in Hcol. rewrite Hfail in Hcol.
  change (analysis_truthy (fallback_analysis (company_name_input i) content))
    with true in Hcol. cbv iota in Hcol.
  destruct (script_stored json_loads s i (fallback_analysis (company_name_input i) content))
    as [Hl He]; [rewrite Hcol; reflexivity | reflexivity |].
  split; [exact Hl|]. split.
  { rewrite script_unfold, Hcol. cbn [snd].
    apply in_or_app. right. apply in_or_app. left. left. reflexivity. }
  split.
  - intros Hnew.
    destruct (in_history _ (entries s)) eqn:Hin in He.
    + apply in_history_iff in Hin. contradiction.
    + rewrite He. reflexivity.
  - destruct (script_recorded json_loads s i (session_recorded json_loads runs))
      as [Hnd Hlast].
    apply entries_named_once; [exact Hnd|].
    destruct (Hlast _ Hl) as [_ Hin]. exact Hin.
Qed.

(** X16.  The history only grows at its end: what a session has recorded
    stays, in place and unchanged, as a prefix of the history of every
    continuation of the session. *)
Theorem history_append_only (earlier later : list Inputs) :
  exists added : list HistoryEntry,
    entries (session json_loads (earlier ++ later))
    = entries (session json_loads earlier) ++ added.
Proof. rewrite session_app. apply fold_script_entries_prefix. Qed.


(** X18.  Every entry a session ever records is consistent: its assignment
    is the resolver's answer on the sectors stored beside it. *)
Theorem history_entries_consistent (runs : list Inputs) (h : HistoryEntry) :
  In h (entries (session json_loads runs)) ->
  assigned_to h = get_team_assignment (sectors h).
Proof.
  intros Hin.
  pose proof (fold_script_entries_consistent json_loads runs initial_session
                (List.Forall_nil _)) as Hall.
  rewrite Forall_forall in Hall. apply (Hall h). apply list_elem_of_In. exact Hin.
Qed.

(** X19.  An error box appears on the page only for a request whose call
    raised, and then with the text "Error analyzing company: " followed by
    the cause; a parse failure, an empty name or a plain rerun never shows
    one. *)
Theorem error_only_when_call_raised (s : SessionState) (i : Inputs) (body : string) :
  In (st_error body) (snd (script json_loads s i)) ->
  Run.requests i = true
  /\ exists cause, Run.outcome i = Raised cause
                   /\ body = "Error analyzing company: " +:+ cause.
Proof.
  rewrite script_unfold. cbn [snd]. rewrite !in_app_iff.
  intros [Hintro|[Hcol|[Hc2|Hh]]].
  - cbn [page_intro In] in Hintro.
    destruct Hintro as [H|[H|[H|[]]]]; discriminate H.
  - destruct (Run.requests i) eqn:Hreq.
    + split; [reflexivity|]. destruct (Run.outcome i) as [cause|content] eqn:Hout.
      * rewrite (column1_raised json_loads s i cause Hreq Hout) in Hcol.
        destruct Hcol as [Heq|[]]. injection Heq as <-. exists cause.
        split; reflexivity.
      * rewrite (column1_answered json_loads s i content Hreq Hout) in Hcol.
        destruct (analysis_truthy _); cbn [snd] in Hcol; [|destruct Hcol].
        destruct (show_results_no_error _ _ Hcol).
    + rewrite (column1_idle json_loads s i Hreq) in Hcol.
      destruct (analyze_pressed i); cbn [snd In] in Hcol;
        [destruct Hcol as [Heq|[]]; discriminate Heq | destruct Hcol].
  - destruct (column2_no_error _ Hc2).
  - destruct (show_history_no_error _ _ Hh).
Qed.

(** An empty description is the default one: [analyze_company] sends
    the same request, and so shows and returns the same, for the description
    "" and for "No description provided". *)
Theorem empty_description_is_default (create : ChatCompletion) (name model : string) :
  request_messages name "" = request_messages name "No description provided"
  /\ analyze_company json_loads create name "" model
     = analyze_company json_loads create name "No description provided" model.
Proof. split; reflexivity. Qed.

End RunProperties.

(** X20.  The history display is the history reversed and cut to ten: at
    most ten entries are shown, and a history of ten entries or fewer is
    shown whole, newest first. *)
Theorem history_display_bounded (history : list HistoryEntry) :
  displayed_history history = firstn 10 (List.rev history)
  /\ List.length (displayed_history history) = Nat.min 10 (List.length history)
  /\ ((List.length history <= 10)%nat -> displayed_history history = List.rev history).
Proof.
  rewrite displayed_history_firstn. split; [reflexivity|]. split.
  - rewrite List.length_firstn, List.length_rev. reflexivity.
  - intros Hlen. apply List.firstn_all2. rewrite List.length_rev. exact Hlen.
Qed.


(** ** The properties on sample runs *)




Lemma new_name_appended_and_shown_first_witness :
  entries (fst (script Json.loads_analysis (session Json.loads_analysis [Run.unparsed])
                  Run.first_acme))
  = entries (session Json.loads_analysis [Run.unparsed])
    ++ [ {| entry_company_name := Some "Acme Corp"; sectors := ["K-12"];
            assigned_to := "Mitch"; entry_confidence := "Medium" |} ].
Proof.
  assert (Htruthy : analysis_truthy
                      (extract_analysis Json.loads_analysis
                         (company_name_input Run.first_acme) Samples.acme_corp_text)
                    = true) by (vm_compute; reflexivity).
  assert (Hnew : in_history
                   (extract_analysis Json.loads_analysis
                      (company_name_input Run.first_acme) Samples.acme_corp_text)
                   (entries (session Json.loads_analysis [Run.unparsed])) = false)
    by (vm_compute; reflexivity).
  destruct (new_name_appended_and_shown_first Json.loads_analysis [Run.unparsed]
              Run.first_acme Samples.acme_corp_text eq_refl eq_refl Htruthy Hnew)
    as (_ & He & _).
  rewrite He. f_equal.
Defined.

Lemma known_name_keeps_history_witness :
  entries (fst (script Json.loads_analysis (session Json.loads_analysis [Run.first_acme])
                  Run.second_acme))
  = entries (session Json.loads_analysis [Run.first_acme])
  /\ primary_sectors
       (extract_analysis Json.loads_analysis "Acme" Run.acme_corp_again_text)
     = Some ["Workforce Learning"].
Proof.
  assert (Htruthy : analysis_truthy
                      (extract_analysis Json.loads_analysis
                         (company_name_input Run.second_acme) Run.acme_corp_again_text)
                    = true) by (vm_compute; reflexivity).
  assert (Hknown : in_history
                     (extract_analysis Json.loads_analysis
                        (company_name_input Run.second_acme) Run.acme_corp_again_text)
                     (entries (session Json.loads_analysis [Run.first_acme])) = true)
    by (vm_compute; reflexivity).
  destruct (known_name_keeps_history Json.loads_analysis [Run.first_acme]
              Run.second_acme Run.acme_corp_again_text eq_refl eq_refl Htruthy Hknown)
    as (_ & He).
  split; [exact He | vm_compute; reflexivity].
Defined.

Lemma unparsed_answer_recorded_witness :
  Json.loads_analysis (brace_span Samples.broken_text) = None
  /\ entries (fst (script Json.loads_analysis
                     (session Json.loads_analysis [Run.first_acme]) Run.unparsed))
     = entries (session Json.loads_analysis [Run.first_acme])
       ++ [Run.fallback_entry "Globex"].
Proof.
  assert (Hfail : Json.loads_analysis (brace_span Samples.broken_text) = None)
    by (vm_compute; reflexivity).
  split; [exact Hfail|].
  destruct (unparsed_answer_recorded Json.loads_analysis [Run.first_acme] Run.unparsed
              Samples.broken_text eq_refl eq_refl Hfail) as (_ & _ & Hnew & _).
  apply Hnew. vm_compute. intros [H|[]]. discriminate H.
Defined.

Lemma history_entries_consistent_witness :
  In {| entry_company_name := Some "Acme Corp"; sectors := ["K-12"];
        assigned_to := "Mitch"; entry_confidence := "Medium" |}
    (entries (session Json.loads_analysis [Run.first_acme; Run.second_acme]))
  /\ "Mitch" = get_team_assignment ["K-12"].
Proof.
  assert (Hin : In {| entry_company_name := Some "Acme Corp"; sectors := ["K-12"];
                      assigned_to := "Mitch"; entry_confidence := "Medium" |}
                  (entries (session Json.loads_analysis
                              [Run.first_acme; Run.second_acme])))
    by (vm_compute; left; reflexivity).
  split; [exact Hin|].
  exact (history_entries_consistent Json.loads_analysis
           [Run.first_acme; Run.second_acme] _ Hin).
Defined.

Lemma error_only_when_call_raised_witness :
  In (st_error "Error analyzing company: Connection refused")
    (snd (script Json.loads_analysis initial_session Run.refused))
  /\ Run.requests Run.refused = true
  /\ exists cause, Run.outcome Run.refused = Raised cause
                   /\ "Error analyzing company: Connection refused"
                      = "Error analyzing company: " +:+ cause.
Proof.
  assert (Hin : In (st_error "Error analyzing company: Connection refused")
                  (snd (script Json.loads_analysis initial_session Run.refused)))
    by (vm_compute; do 3 right; left; reflexivity).
  split; [exact Hin|].
  exact (error_only_when_call_raised Json.loads_analysis initial_session Run.refused
           _ Hin).
Defined.

Lemma history_display_bounded_witness :
  (List.length (firstn 3 Samples.twelve_entries) <= 10)%nat
  /\ displayed_history (firstn 3 Samples.twelve_entries)
     = List.rev (firstn 3 Samples.twelve_entries).
Proof.
  assert (Hlen : (List.length (firstn 3 Samples.twelve_entries) <= 10)%nat)
    by (cbn; lia).
  split; [exact Hlen|].
  exact (proj2 (proj2 (history_display_bounded (firstn 3 Samples.twelve_entries))) Hlen).
Defined.

(** Spans of three answers: two objects in prose, braces in the wrong
    order, a closing brace alone. *)
Example brace_span_runs :
  brace_span "{a} and {b}" = "{a} and {b}"
  /\ brace_span "} nothing {" = ""
  /\ brace_span "closing only}" = "}".
Proof. split; [|split]; vm_compute; reflexivity. Qed.


(** * Runs from any state

    The statements of this part hold from every state of the session,
    whether or not the stored analysis has its entry: a run that stopped
    after line 166 and before the append leaves one without. *)

Section AnyState.

Variable json_loads : string -> option AnalysisResult.

Implicit Types (s : SessionState) (i : Inputs) (a : AnalysisResult).



(** The append keeps the names distinct and gives a truthy stored analysis
    its entry, from any state. *)
Lemma append_names s :
  List.NoDup (Spec.names s) ->
  List.NoDup (Spec.names (add_to_history (init_history s)))
  /\ forall a, last_analysis s = Some a -> analysis_truthy a = true ->
       In (company_name a) (Spec.names (add_to_history (init_history s))).
Proof.
  unfold Spec.names. intros Hnd.
  rewrite add_to_history_entries, init_history_last_analysis, init_history_entries.
  destruct (last_analysis s) as [a|] eqn:Hl; [|split; [exact Hnd | discriminate]].
  destruct (analysis_truthy a) eqn:Ha; cbn [andb].
  - destruct (in_history a (entries s)) eqn:Hin; cbn [negb].
    + split; [exact Hnd|]. intros a' Ha' _. injection Ha' as <-.
      apply in_history_iff. exact Hin.
    + assert (Hfresh : ~ In (company_name a) (map entry_company_name (entries s))).
      { intros H. apply in_history_iff in H. congruence. }
      rewrite map_app. cbn [map history_entry entry_company_name]. split.
      * apply List.NoDup_app; [exact Hnd | |].
        -- apply List.NoDup_cons; [intros [] | apply List.NoDup_nil].
        -- intros x Hx [<-|[]]. contradiction.
      * intros a' Ha' _. injection Ha' as <-.
        apply in_or_app. right. left. reflexivity.
  - split; [exact Hnd|]. intros a' Ha' Ht. injection Ha' as <-. congruence.
Qed.








(** C4, as the code has it.  An entry carries the company name of the
    analysis result (that of the parsed object, or the submitted name on the
    fallback path), not the name typed into the form.  For analyses of the
    data model's types, whose name is a string or absent: a run that finds
    no name twice in the history leaves none twice, from whatever state it
    starts, and after the run the stored analysis, a truthy one, has exactly
    one entry of its name; so a second result of a name adds no second
    entry. *)
Theorem history_step_names_unique s i :
  List.NoDup (map entry_company_name (entries s)) ->
  List.NoDup (map entry_company_name (entries (fst (script json_loads s i))))
  /\ forall a,
       last_analysis (fst (script json_loads s i)) = Some a ->
       analysis_truthy a = true ->
       Spec.entries_named (company_name a) (entries (fst (script json_loads s i)))
       = 1%nat.
Proof.
  intros Hnd. rewrite script_unfold. cbn [fst].
  assert (Hnd1 : List.NoDup (Spec.names (fst (column1 json_loads s i)))).
  { unfold Spec.names, entries. rewrite column1_history. exact Hnd. }
  destruct (append_names _ Hnd1) as [Hnd2 Hin].
  split; [exact Hnd2|].
  intros a Hl Ha. apply entries_named_once; [exact Hnd2|].
  rewrite add_to_history_last_analysis, init_history_last_analysis in Hl.
  apply (Hin a Hl Ha).
Qed.





(** X17.  A run appends at most one entry, from any state, so a session of
    n runs has at most n entries. *)
Theorem run_appends_at_most_one s i (runs : list Inputs) :
  (List.length (entries (fst (script json_loads s i))) <= List.length (entries s) + 1)%nat
  /\ (List.length (entries (session json_loads runs)) <= List.length runs)%nat.
Proof.
  assert (Hone : forall s' i',
             (List.length (entries (fst (script json_loads s' i')))
              <= List.length (entries s') + 1)%nat).
  { intros s' i'. destruct (script_entries json_loads s' i') as [->|[a ->]]; [lia|].
    rewrite List.length_app. cbn [List.length]. lia. }
  split; [apply Hone|].
  unfold session.
  assert (Hfold : forall s0,
             (List.length
                (entries (fold_left (fun s i => fst (script json_loads s i)) runs s0))
              <= List.length (entries s0) + List.length runs)%nat).
  { induction runs as [|i' runs' IH]; intros s0; cbn [fold_left List.length]; [lia|].
    pose proof (IH (fst (script json_loads s0 i'))). pose proof (Hone s0 i'). lia. }
  apply (Hfold initial_session).
Qed.

End AnyState.

(** ** The statements of this part on sample runs *)


Lemma history_step_names_unique_witness :
  List.NoDup
    (map entry_company_name
       (entries (session Json.loads_analysis [Run.first_acme; Run.unparsed])))
  /\ last_analysis
       (fst (script Json.loads_analysis
               (session Json.loads_analysis [Run.first_acme; Run.unparsed])
               Run.second_acme))
     = Some {| company_name := Some "Acme Corp";
               primary_sectors := Some ["Workforce Learning"];
               secondary_sectors := None; reasoning := None;
               confidence := Some "Low"; other_keys := 0 |}
  /\ Spec.entries_named (Some "Acme Corp")
       (entries
          (fst (script Json.loads_analysis
                  (session Json.loads_analysis [Run.first_acme; Run.unparsed])
                  Run.second_acme)))
     = 1%nat.
Proof.
  assert (Hnd : List.NoDup
                  (map entry_company_name
                     (entries (session Json.loads_analysis
                                 [Run.first_acme; Run.unparsed])))).
  { vm_compute. repeat constructor; cbn [In]; intuition discriminate. }
  assert (Hl : last_analysis
                 (fst (script Json.loads_analysis
                         (session Json.loads_analysis [Run.first_acme; Run.unparsed])
                         Run.second_acme))
               = Some {| company_name := Some "Acme Corp";
                         primary_sectors := Some ["Workforce Learning"];
                         secondary_sectors := None; reasoning := None;
                         confidence := Some "Low"; other_keys := 0 |})
    by (vm_compute; reflexivity).
  split; [exact Hnd|]. split; [exact Hl|].
  exact (proj2 (history_step_names_unique Json.loads_analysis _ Run.second_acme Hnd)
           _ Hl eq_refl).
Defined.




